(** * Aviator prediction bot: the observation ledger and the
      predict / fit / feedback loop of [bot.py]

    The development embeds the functions of [bot.py] as computations over
    an explicit state of the process, and settles the properties that the
    specification states about them.

    - Python strings are [string]s: sequences of characters with code
      points below 256.  The string methods, the two regular expressions,
      [float], [int] and [str] of a float follow CPython on this range.
    - Python floats are IEEE binary64 numbers: [spec_float] at precision 53
      and maximal exponent 1024, with correctly rounded conversions.
    - The regressor of scikit-learn is an external collaborator: a call of
      [model.fit] is recorded with its arguments, and the value of a
      prediction stays symbolic.  The library validates its input before
      anything else: the features are converted to float32 and must be
      finite there, the targets must be finite, and a refusal is a
      [ValueError] that leaves the forest as it was.
    - The Telegram library is an external collaborator too: a handler is a
      function of the message text, replies and log records are recorded
      in order, and what the channel answers to the download and to the
      uploads of the model file is given with the state.  [Updater] checks
      the form of the token.  The order in which the dispatcher tries the
      handlers is not modelled; the filters of [init_bot] are. *)

From Stdlib Require Import List String Ascii Bool Arith ZArith Lia.
From Stdlib Require Import Floats.SpecFloat.
Import ListNotations.

Local Open Scope string_scope.
Local Open Scope nat_scope.

(** ** Characters and the string methods used by the bot *)

Module PyStr.

Definition code (c : ascii) : nat := nat_of_ascii c.

(** [\d] of the [re] module, on code points below 256: the ten ASCII
    digits. *)
Definition is_digit (c : ascii) : bool :=
  (48 <=? code c) && (code c <=? 57).

(** [str.isspace] on code points below 256; [str.strip] removes exactly
    these characters. *)
Definition is_space (c : ascii) : bool :=
  let n := code c in
  ((9 <=? n) && (n <=? 13)) || ((28 <=? n) && (n <=? 32))
  || (n =? 133) || (n =? 160).

(** [str.isdigit] on code points below 256: the ten ASCII digits and the
    superscripts two, three and one. *)
Definition isdigit (c : ascii) : bool :=
  let n := code c in
  is_digit c || (n =? 178) || (n =? 179) || (n =? 185).

Definition chars (s : string) : list ascii := list_ascii_of_string s.
Definition str (cs : list ascii) : string := string_of_list_ascii cs.

Fixpoint lstrip_chars (cs : list ascii) : list ascii :=
  match cs with
  | c :: r => if is_space c then lstrip_chars r else cs
  | [] => []
  end.

Definition rstrip_chars (cs : list ascii) : list ascii :=
  rev (lstrip_chars (rev cs)).

Definition strip_chars (cs : list ascii) : list ascii :=
  rstrip_chars (lstrip_chars cs).

(** [s.strip()] *)
Definition strip (s : string) : string := str (strip_chars (chars s)).

(** [s.lower()] on code points below 256: [A-Z] and the accented capitals
    192..222 (without the multiplication sign 215) move up by 32. *)
Definition lower_char (c : ascii) : ascii :=
  let n := code c in
  if ((65 <=? n) && (n <=? 90))
     || ((192 <=? n) && (n <=? 222) && negb (n =? 215))
  then ascii_of_nat (n + 32) else c.

Definition lower (s : string) : string := str (map lower_char (chars s)).

(** [s.split(sep)] for a one-character separator: never the empty list. *)
Fixpoint split_chars (sep : ascii) (cs : list ascii) : list (list ascii) :=
  match cs with
  | [] => [[]]
  | c :: r =>
      if Ascii.eqb c sep then [] :: split_chars sep r
      else match split_chars sep r with
           | w :: ws => (c :: w) :: ws
           | [] => [[c]]
           end
  end.

Definition split (sep : ascii) (s : string) : list string :=
  map str (split_chars sep (chars s)).

(** Truth value of a string: non-empty. *)
Definition truthy (s : string) : bool :=
  match s with EmptyString => false | String _ _ => true end.

(** The longest prefix satisfying [p], and the rest. *)
Fixpoint span (p : ascii -> bool) (cs : list ascii)
  : list ascii * list ascii :=
  match cs with
  | c :: r =>
      if p c then let (a, b) := span p r in (c :: a, b) else ([], cs)
  | [] => ([], [])
  end.

Definition is_nil {A} (l : list A) : bool :=
  match l with [] => true | _ => false end.

End PyStr.

(** ** The two regular expressions of the bot *)

Module Re.
Import PyStr.

(** [$] without [re.MULTILINE]: the end of the string, or just before a
    newline that ends the string. *)
Definition at_dollar (cs : list ascii) : bool :=
  match cs with
  | [] => true
  | [c] => Ascii.eqb c "010"%char
  | _ => false
  end.

(** [re.match(r'^\d+(\.\d+)?$', s)] as a truth value.  The digit runs are
    taken greedily; giving digits back cannot help, since the character
    after a shorter run is a digit, which neither [\.] nor [$] accepts. *)
Definition match_decimal_chars (cs : list ascii) : bool :=
  let (ip, r1) := span is_digit cs in
  negb (is_nil ip) &&
  (at_dollar r1 ||
   match r1 with
   | c :: r =>
       Ascii.eqb c "."%char &&
       (let (fp, r2) := span is_digit r in
        negb (is_nil fp) && at_dollar r2)
   | [] => false
   end).

Definition match_decimal (s : string) : bool := match_decimal_chars (chars s).

(** [re.search(r'^(yes|no)$', s)] as a truth value: the pattern of
    [Filters.regex] is compiled without flags, so it is case-sensitive. *)
Definition search_yes_no (s : string) : bool :=
  match chars s with
  | "y"%char :: "e"%char :: "s"%char :: r => at_dollar r
  | "n"%char :: "o"%char :: r => at_dollar r
  | _ => false
  end.

(** [re.search(r'^\d+(\.\d+)?$', s)]: the pattern is anchored at the start,
    so searching and matching agree. *)
Definition search_decimal (s : string) : bool := match_decimal s.

End Re.

(** ** Python floats: [float(s)], [str(x)] and the comparison with zero *)

Module PyFloat.
Import PyStr.

Local Open Scope Z_scope.

(** IEEE binary64. *)
Definition float : Type := spec_float.
Definition prec : Z := 53.
Definition emax : Z := 1024.

Definition zero : float := S754_zero false.

(** [x <= 0], which is false on a NaN. *)
Definition le_zero (x : float) : bool := SFleb x zero.

(** A number that is not negative, or plus infinity: no NaN, and the sign
    bit is clear. *)
Definition nonneg (x : float) : bool :=
  match x with
  | S754_zero false | S754_finite false _ _ | S754_infinity false => true
  | _ => false
  end.

(** The binary64 number nearest to [(-1)^neg * m * 10^e] for [0 <= m],
    ties to even, with overflow to an infinity: the correctly rounded
    conversion of CPython's [strtod]. *)
Definition of_decimal (neg : bool) (m e : Z) : float :=
  match m with
  | Zpos p =>
      if 0 <=? e
      then binary_normalize prec emax (cond_Zopp neg (m * 10 ^ e)) 0 neg
      else let '(q, e', l) :=
             SFdiv_core_binary prec emax m 0 (10 ^ (- e)) 0 in
           binary_round_aux prec emax neg q e' l
  | _ => S754_zero neg
  end.

Definition digit_value (c : ascii) : Z := Z.of_nat (code c) - 48.

(** Value of a run of decimal digits. *)
Definition digits_value (ds : list ascii) : Z :=
  fold_left (fun acc c => 10 * acc + digit_value c) ds 0.

(** White space removed by [float] around its argument. *)
Definition is_float_space (c : ascii) : bool :=
  let n := code c in
  ((9 <=? n) && (n <=? 13) || (n =? 32) || (n =? 133) || (n =? 160))%nat.

Fixpoint lstrip_space (cs : list ascii) : list ascii :=
  match cs with
  | c :: r => if is_float_space c then lstrip_space r else cs
  | [] => []
  end.

Definition strip_space (cs : list ascii) : list ascii :=
  rev (lstrip_space (rev (lstrip_space cs))).

(** Underscores are accepted between two digits only, and removed;
    [prev] is the character before [cs]. *)
Fixpoint drop_underscores (prev : ascii) (cs : list ascii)
  : option (list ascii) :=
  match cs with
  | [] => if Ascii.eqb prev "_"%char then None else Some []
  | c :: r =>
      if Ascii.eqb c "_"%char
      then if is_digit prev then drop_underscores c r else None
      else if Ascii.eqb prev "_"%char && negb (is_digit c) then None
           else option_map (cons c) (drop_underscores c r)
  end.

(** ASCII [tolower]. *)
Definition tolower (c : ascii) : ascii :=
  let n := code c in
  if ((65 <=? n) && (n <=? 90))%nat then ascii_of_nat (n + 32) else c.

Definition is_word (w : string) (cs : list ascii) : bool :=
  String.eqb (str (map tolower cs)) w.

Definition split_sign (cs : list ascii) : bool * list ascii :=
  match cs with
  | "-"%char :: r => (true, r)
  | "+"%char :: r => (false, r)
  | _ => (false, cs)
  end.

(** The exponent part: empty, or [e] or [E], an optional sign and at least
    one digit, up to the end of the string. *)
Definition parse_exponent (cs : list ascii) : option Z :=
  match cs with
  | [] => Some 0
  | c :: r =>
      if Ascii.eqb (tolower c) "e"%char then
        let (neg, r') := split_sign r in
        let (ds, rest) := span is_digit r' in
        if is_nil ds || negb (is_nil rest) then None
        else Some (cond_Zopp neg (digits_value ds))
      else None
  end.

(** An optional sign, then [inf], [infinity] or [nan] in any case, or a
    decimal number with at least one digit before or after the point and
    an optional exponent; the whole string must be consumed. *)
Definition parse_number (cs : list ascii) : option float :=
  let (neg, body) := split_sign cs in
  if is_word "inf" body || is_word "infinity" body
  then Some (S754_infinity neg)
  else if is_word "nan" body then Some S754_nan
  else
    let (ip, r1) := span is_digit body in
    let (fp, r2) :=
      match r1 with
      | c :: r => if Ascii.eqb c "."%char then span is_digit r else ([], r1)
      | [] => ([], r1)
      end in
    if is_nil ip && is_nil fp then None
    else match parse_exponent r2 with
         | Some e =>
             Some (of_decimal neg (digits_value (ip ++ fp)%list)
                     (e - Z.of_nat (List.length fp)))
         | None => None
         end.

(** [float(s)] for a string [s]; [None] stands for [ValueError]. *)
Definition of_string (s : string) : option float :=
  match drop_underscores "000"%char (strip_space (chars s)) with
  | Some cs => parse_number cs
  | None => None
  end.

(** *** [str(x)]: the shortest decimal string that reads back as [x] *)

Definition eqb (x y : float) : bool :=
  match x, y with
  | S754_zero a, S754_zero b => Bool.eqb a b
  | S754_infinity a, S754_infinity b => Bool.eqb a b
  | S754_nan, S754_nan => true
  | S754_finite a m e, S754_finite b n f =>
      Bool.eqb a b && Pos.eqb m n && Z.eqb e f
  | _, _ => false
  end.

Fixpoint digits_of (fuel : nat) (n : Z) (acc : list ascii) : list ascii :=
  match fuel with
  | O => acc
  | S fuel' =>
      let acc' := ascii_of_nat (Z.to_nat (48 + n mod 10)) :: acc in
      if n <? 10 then acc' else digits_of fuel' (n / 10) acc'
  end.

(** The decimal digits of [0 <= n], without leading zeros. *)
Definition decimal (n : Z) : list ascii :=
  digits_of (S (Z.to_nat (Z.log2 n))) n [].

Definition ndigits (n : Z) : Z := Z.of_nat (List.length (decimal n)).

(** [n / d * 10^t] as a fraction. *)
Definition scale10 (n d t : Z) : Z * Z :=
  if 0 <=? t then (n * 10 ^ t, d) else (n, d * 10 ^ (- t)).

(** The position [k] of the decimal point: [10^(k-1) <= n/d < 10^k]. *)
Definition decimal_point (n d : Z) : Z :=
  let k := ndigits n - ndigits d in
  let (n', d') := scale10 n d (- k) in
  if n' <? d' then k else k + 1.

(** With [digs] significant digits: the neighbours of [n/d] that read
    back as [x], the nearer one first; [(m, e)] stands for [m * 10^e]. *)
Definition candidate (x : float) (n d k digs : Z) : option (Z * Z) :=
  let t := digs - k in
  let (n', d') := scale10 n d t in
  let lo := n' / d' in
  let r := n' mod d' in
  let ok m := eqb (of_decimal false m (- t)) x in
  if r =? 0 then Some (lo, - t)
  else if 2 * r <? d'
       then if ok lo then Some (lo, - t)
            else if ok (lo + 1) then Some (lo + 1, - t) else None
       else if ok (lo + 1) then Some (lo + 1, - t)
            else if ok lo then Some (lo, - t) else None.

(** Seventeen significant digits always read back, so the search ends
    with a candidate before [more] runs out. *)
Fixpoint shortest (x : float) (n d k : Z) (more : nat) (digs : Z)
  : Z * Z :=
  match more with
  | O => (n / d, 0)
  | S more' =>
      match candidate x n d k digs with
      | Some r => r
      | None => shortest x n d k more' (digs + 1)
      end
  end.

Fixpoint drop_zeros (fuel : nat) (m e : Z) : Z * Z :=
  match fuel with
  | O => (m, e)
  | S fuel' =>
      if (m mod 10 =? 0) && negb (m =? 0)
      then drop_zeros fuel' (m / 10) (e + 1) else (m, e)
  end.

Definition zeros (n : Z) : list ascii := repeat "0"%char (Z.to_nat n).

(** The exponent of the scientific notation: a sign and at least two
    digits. *)
Definition exponent_chars (e : Z) : list ascii :=
  let ds := decimal (Z.abs e) in
  ((if e <? 0 then "-"%char else "+"%char)
   :: (if Z.abs e <? 10 then "0"%char :: ds else ds))%list.

(** The digits [ds] with the decimal point after [k] of them, in the
    format of [repr]: scientific notation from [1e16] and below [1e-4]. *)
Definition format_digits (ds : list ascii) (k : Z) : list ascii :=
  (if (k <=? -4) || (16 <? k) then
     match ds with
     | [] => []
     | d1 :: rest =>
         d1 :: (if is_nil rest then [] else "."%char :: rest)
            ++ "e"%char :: exponent_chars (k - 1)
     end
   else if k <=? 0 then
     "0"%char :: "."%char :: zeros (- k) ++ ds
   else if Z.of_nat (List.length ds) <=? k then
     ds ++ zeros (k - Z.of_nat (List.length ds)) ++ ["."%char; "0"%char]
   else
     firstn (Z.to_nat k) ds ++ "."%char :: skipn (Z.to_nat k) ds)%list.

(** [str(x)], which is [repr(x)]. *)
Definition to_string (x : float) : string :=
  match x with
  | S754_nan => "nan"
  | S754_infinity s => if s then "-inf" else "inf"
  | S754_zero s => if s then "-0.0" else "0.0"
  | S754_finite s m e =>
      let ax := S754_finite false m e in
      let (n, d) :=
        if 0 <=? e then (Zpos m * 2 ^ e, 1) else (Zpos m, 2 ^ (- e)) in
      let k := decimal_point n d in
      let (m10, e10) := shortest ax n d k 17 1 in
      let (m10', e10') := drop_zeros 17 m10 e10 in
      let ds := decimal m10' in
      let body := format_digits ds (Z.of_nat (List.length ds) + e10') in
      str (if s then "-"%char :: body else body)
  end.

End PyFloat.

(** ** [int(s)] *)

Module PyInt.
Import PyStr.

Local Open Scope Z_scope.

(** [int(s)] in base ten: white space around, an optional sign, digits
    with single underscores between them; [None] stands for
    [ValueError]. *)
Definition of_string (s : string) : option Z :=
  let (neg, body) := PyFloat.split_sign (PyFloat.strip_space (chars s)) in
  match PyFloat.drop_underscores "000"%char body with
  | Some ds =>
      if negb (is_nil ds) && forallb is_digit ds
      then Some (cond_Zopp neg (PyFloat.digits_value ds))
      else None
  | None => None
  end.

End PyInt.

(** ** The bot *)

Module Bot.
Import PyStr.

Definition float : Type := PyFloat.float.

(** *** The regressor

    [RandomForestRegressor(n_estimators=100, random_state=42)] is either
    never fitted, or fitted on the feature column [X] and the target column
    [y] of its latest [fit]: every [fit] rebuilds the forest from its
    arguments alone ([warm_start] is off).  The value of
    [model.predict([[x]])[0]] is kept symbolic. *)
Inductive Model : Type :=
| Unfitted
| Fitted (X y : list float).

Inductive prediction : Type :=
| RF_predict (X y : list float) (x : float).

(** *** Replies, log records and the other observable effects *)

Inductive message : Type :=
| Text (s : string)
  (** The three lines of a prediction reply: the historical crash points
      [', '.join(map(str, numbers))], the predicted next outcome with two
      decimals, and the question whether the prediction was correct. *)
| PredictionText (numbers : list float) (predicted_outcome : prediction).

Inductive event : Type :=
| Reply (m : message)          (* update.message.reply_text *)
| Fit (X y : list float)       (* model.fit(X, y) *)
| Dump                         (* dump(model, "random_forest_model.joblib") *)
| LogInfo (s : string)
| LogWarning (s : string)
| LogError (s : string).

Inductive exn : Type :=
| ValueError        (* float() or int() of a malformed string, and the
                       regressor on an input that it refuses *)
| NotFittedError    (* predict of a forest that was never fitted *)
| AttributeError    (* a method call on None *)
| InvalidToken.     (* Updater on a malformed token *)

(** What the body of a [try] gives: its result, or the text [str(e)] of
    the exception [e] that it raised. *)
Inductive attempt (A : Type) : Type :=
| Done (a : A)
| Failed (e : string).
Arguments Done {A} a.
Arguments Failed {A} e.

(** *** The state of the process *)

(** [context.user_data] of the user in conversation, read with [get]:
    a missing key and a key holding [None] are both [None] here. *)
Record UserData : Type := {
  predicted_value : option prediction;
  feedback : option string
}.

Record State : Type := {
  historical_data : list string;
  feedback_data : list string;
  model : Model;
  MODEL_FILE_ID : option string;
  user_data : UserData;
  (** What the Telegram channel answers to the coming uploads of the model
      file, the next one first: the file identifier of the stored
      document, or the exception that the upload raises. *)
  channel : nat -> attempt string;
  (** Whether the installed scikit-learn takes a NaN among the features
      for a missing value, as the forests do from version 1.4 on, or
      refuses it with the infinities. *)
  missing_values : bool
}.

Definition set_historical_data (h : list string) (st : State) : State :=
  {| historical_data := h; feedback_data := feedback_data st;
     model := model st; MODEL_FILE_ID := MODEL_FILE_ID st;
     user_data := user_data st; channel := channel st;
     missing_values := missing_values st |}.

Definition set_feedback_data (f : list string) (st : State) : State :=
  {| historical_data := historical_data st; feedback_data := f;
     model := model st; MODEL_FILE_ID := MODEL_FILE_ID st;
     user_data := user_data st; channel := channel st;
     missing_values := missing_values st |}.

Definition set_model (m : Model) (st : State) : State :=
  {| historical_data := historical_data st;
     feedback_data := feedback_data st;
     model := m; MODEL_FILE_ID := MODEL_FILE_ID st;
     user_data := user_data st; channel := channel st;
     missing_values := missing_values st |}.

Definition set_MODEL_FILE_ID (i : option string) (st : State) : State :=
  {| historical_data := historical_data st;
     feedback_data := feedback_data st;
     model := model st; MODEL_FILE_ID := i;
     user_data := user_data st; channel := channel st;
     missing_values := missing_values st |}.

Definition set_user_data (u : UserData) (st : State) : State :=
  {| historical_data := historical_data st;
     feedback_data := feedback_data st;
     model := model st; MODEL_FILE_ID := MODEL_FILE_ID st;
     user_data := u; channel := channel st;
     missing_values := missing_values st |}.

Definition set_channel (c : nat -> attempt string) (st : State) : State :=
  {| historical_data := historical_data st;
     feedback_data := feedback_data st;
     model := model st; MODEL_FILE_ID := MODEL_FILE_ID st;
     user_data := user_data st; channel := c;
     missing_values := missing_values st |}.

(** *** Computations: state, effects and exceptions

    A computation runs from a state to a result or a raised exception,
    the state it leaves (mutations made before a raise stay) and the
    effects it had, in order. *)

Inductive outcome (A : Type) : Type :=
| Return (a : A)
| Raise (e : exn).
Arguments Return {A} a.
Arguments Raise {A} e.

Definition M (A : Type) : Type := State -> outcome A * State * list event.

Definition ret {A} (a : A) : M A := fun st => (Return a, st, []).

Definition raise {A} (e : exn) : M A := fun st => (Raise e, st, []).

Definition bind {A B} (c : M A) (k : A -> M B) : M B :=
  fun st =>
    match c st with
    | (Return a, st1, ev1) =>
        match k a st1 with
        | (r, st2, ev2) => (r, st2, (ev1 ++ ev2)%list)
        end
    | (Raise e, st1, ev1) => (Raise e, st1, ev1)
    end.

Notation "x <- c ;; k" := (bind c (fun x => k))
  (at level 61, c at next level, right associativity).
Notation "c ;; k" := (bind c (fun _ => k))
  (at level 61, right associativity).

Definition gets {A} (f : State -> A) : M A := fun st => (Return (f st), st, []).

Definition modify (f : State -> State) : M unit :=
  fun st => (Return tt, f st, []).

Definition emit (e : event) : M unit := fun st => (Return tt, st, [e]).

(** The state, the result and the effects of a run. *)
Definition result {A} (r : outcome A * State * list event) : outcome A :=
  fst (fst r).
Definition final {A} (r : outcome A * State * list event) : State :=
  snd (fst r).
Definition effects {A} (r : outcome A * State * list event) : list event :=
  snd r.

Definition is_fit (e : event) : bool :=
  match e with Fit _ _ => true | _ => false end.

(** How many times [model.fit] was called. *)
Definition count_fits (ev : list event) : nat :=
  List.length (filter is_fit ev).

(** [float(point)] *)
Definition to_float (point : string) : M float :=
  match PyFloat.of_string point with
  | Some x => ret x
  | None => raise ValueError
  end.

(** [[float(point) for point in points]] *)
Fixpoint floats (points : list string) : M (list float) :=
  match points with
  | [] => ret []
  | p :: r => x <- to_float p ;; xs <- floats r ;; ret (x :: xs)
  end.

(** *** What the regressor checks of its input *)

Definition is_nan (x : float) : bool :=
  match x with S754_nan => true | _ => false end.

(** [np.isfinite(x)] *)
Definition is_finite (x : float) : bool :=
  match x with
  | S754_zero _ | S754_finite _ _ _ => true
  | _ => false
  end.

(** The least magnitude that the conversion to float32 rounds to an
    infinity: half way between the largest float32,
    [(2^24 - 1) * 2^104], and [2^128]. *)
Definition float32_overflow : Z := (2 ^ 128 - 2 ^ 103)%Z.

(** [np.isfinite(np.float32(x))]: [x] is finite and the nearest float32 is
    no infinity. *)
Definition finite32 (x : float) : bool :=
  match x with
  | S754_zero _ => true
  | S754_finite _ m e =>
      if (0 <=? e)%Z
      then (Zpos m * 2 ^ e <? float32_overflow)%Z
      else (Zpos m <? float32_overflow * 2 ^ (- e))%Z
  | _ => false
  end.

(** A feature that the forest takes: finite as a float32, or a NaN where
    the library reads it as a missing value. *)
Definition feature_ok (missing : bool) (x : float) : bool :=
  finite32 x || (missing && is_nan x).

(** The validation of [fit]: every feature is taken, every target is
    finite. *)
Definition frame_ok (missing : bool) (X y : list float) : bool :=
  forallb (feature_ok missing) X && forallb is_finite y.

(** [model.fit(X, y)]: the call, then the validation of [X] and [y], which
    raises before the forest is touched, then the new forest. *)
Definition fit (X y : list float) : M unit :=
  emit (Fit X y) ;;
  missing <- gets missing_values ;;
  if frame_ok missing X y then modify (set_model (Fitted X y))
  else raise ValueError.

(** [model.predict(np.array([[x]]))[0]]: the forest must have been
    fitted, then the input is validated. *)
Definition predict (x : float) : M prediction :=
  m <- gets model ;;
  match m with
  | Unfitted => raise NotFittedError
  | Fitted X y =>
      missing <- gets missing_values ;;
      if feature_ok missing x then ret (RF_predict X y x)
      else raise ValueError
  end.

(** *** [predict_aviator_outcome] *)

Definition no_valid_data : message :=
  Text "No valid crash points found. Please provide numeric data.".

Definition predict_aviator_outcome (crash_points : list string)
  : M (message * option prediction) :=
  numbers <- floats (filter Re.match_decimal crash_points) ;;
  let count := List.length numbers in
  if count =? 0 then ret (no_valid_data, None)
  else
    (if 1 <? count
     then fit (removelast numbers) (tl numbers) ;; emit Dump
     else ret tt) ;;
    predicted_outcome <- predict (last numbers PyFloat.zero) ;;
    ret (PredictionText numbers predicted_outcome, Some predicted_outcome).

(** *** [update_model_with_feedback] *)

(** The upload of the model file, inside [try]: a success stores the new
    file identifier, a failure is logged with the exception. *)
Definition upload_model : M unit :=
  c <- gets channel ;;
  modify (set_channel (fun n => c (S n))) ;;
  match c 0 with
  | Done file_id =>
      modify (set_MODEL_FILE_ID (Some file_id)) ;;
      emit (LogInfo "Updated model file uploaded to Telegram channel.")
  | Failed e => emit (LogError ("Failed to upload model to Telegram: " ++ e))
  end.

Definition update_model_with_feedback
  (feedback : option string) (actual_value : float)
  (predicted_value : option prediction) : M unit :=
  match feedback with
  | None => raise AttributeError
  | Some fb =>
      if String.eqb (lower fb) "yes" then
        emit (LogInfo "Feedback: Prediction was correct.")
      else if String.eqb (lower fb) "no" then
        emit (LogInfo "Feedback: Prediction was incorrect. Updating model...") ;;
        modify (fun st =>
          set_historical_data
            (historical_data st ++ [PyFloat.to_string actual_value]) st) ;;
        h <- gets historical_data ;;
        numbers <- floats h ;;
        if 1 <? List.length numbers then
          fit (removelast numbers) (tl numbers) ;;
          emit Dump ;;
          upload_model
        else ret tt
      else emit (LogWarning "Invalid feedback received.")
  end.

(** *** The handlers *)

Definition cleared : message :=
  Text "Historical data and feedback have been cleared.".

Definition clear_data : M unit :=
  modify (set_historical_data []) ;;
  modify (set_feedback_data []) ;;
  emit (Reply cleared).

(** [[point.strip() for point in input_data.split(",") if point.strip()]] *)
Definition crash_points_of (text : string) : list string :=
  filter truthy (map strip (split ","%char (strip text))).

Definition process_crash_points (text : string) : M unit :=
  let new_crash_points := crash_points_of text in
  modify (fun st =>
    set_historical_data (historical_data st ++ new_crash_points) st) ;;
  h <- gets historical_data ;;
  r <- predict_aviator_outcome h ;;
  emit (Reply (fst r)) ;;
  modify (fun st =>
    set_user_data {| predicted_value := snd r;
                     feedback := feedback (user_data st) |} st).

Definition no_recent_prediction : message :=
  Text "No recent prediction found. Please enter crash points first.".

Definition ask_actual_value : message :=
  Text "Please provide the actual value for the last prediction:".

Definition process_feedback (text : string) : M unit :=
  let fb := lower (strip text) in
  pv <- gets (fun st => predicted_value (user_data st)) ;;
  match pv with
  | None => emit (Reply no_recent_prediction)
  | Some _ =>
      emit (Reply ask_actual_value) ;;
      modify (fun st =>
        set_user_data {| predicted_value := predicted_value (user_data st);
                         feedback := Some fb |} st)
  end.

Definition invalid_actual_value : message :=
  Text "Invalid actual value. Please provide a positive number.".

Definition thank_you : message :=
  Text "Thank you for your feedback! The model has been updated.".

Definition process_actual_value (text : string) : M unit :=
  let actual_value := strip text in
  fb <- gets (fun st => feedback (user_data st)) ;;
  pv <- gets (fun st => predicted_value (user_data st)) ;;
  invalid <-
    (if negb (Re.match_decimal actual_value) then ret true
     else x <- to_float actual_value ;; ret (PyFloat.le_zero x)) ;;
  if (invalid : bool) then emit (Reply invalid_actual_value)
  else
    x <- to_float actual_value ;;
    update_model_with_feedback fb x pv ;;
    emit (Reply thank_you).

(** The filters under which [init_bot] registers [process_feedback] and
    [process_actual_value]. *)
Definition feedback_filter (text : string) : bool := Re.search_yes_no text.
Definition actual_value_filter (text : string) : bool :=
  Re.search_decimal text.

(** *** Start-up: [load_or_train_model] and [init_bot] *)

(** The environment of the process, for [os.getenv]. *)
Definition Env : Type := list (string * string).

Fixpoint getenv (env : Env) (name : string) : option string :=
  match env with
  | [] => None
  | (k, v) :: r => if String.eqb k name then Some v else getenv r name
  end.

(** [not v] for the result of [os.getenv]: [None] and the empty string are
    false values. *)
Definition falsy (v : option string) : bool :=
  match v with
  | Some s => negb (truthy s)
  | None => true
  end.

(** [download] is what the body of the [try] gives, the fetching and the
    loading of the stored model file: the model, or the exception of the
    step that raises.  (With python-telegram-bot 13 a step always raises:
    its [Request] has no method [get].) *)
Definition load_or_train_model
  (file_id : option string) (download : attempt Model)
  : Model * list event :=
  let train :=
    (Unfitted, [LogInfo "Training a new model..."; Dump]) in
  if falsy file_id then train
  else match download with
       | Done m => (m, [LogInfo "Model file downloaded successfully."])
       | Failed e =>
           (fst train,
            LogError ("Failed to download model from Telegram: " ++ e)
              :: snd train)
       end.

(** What the libraries around the bot do, as far as the bot sees it. *)
Record Library : Type := {
  (** the download of the stored model file *)
  download : attempt Model;
  (** the uploads of the model file to come *)
  uploads : nat -> attempt string;
  (** the reading of a NaN among the features *)
  nan_is_missing : bool
}.

(** [Bot._validate_token] of python-telegram-bot, which [Updater(TOKEN)]
    runs: no white space anywhere, a colon, and before the first colon
    nothing but digits, three or more.  [false] stands for
    [InvalidToken]. *)
Definition validate_token (token : string) : bool :=
  let cs := chars token in
  let (left, rest) := span (fun c => negb (Ascii.eqb c ":"%char)) cs in
  negb (existsb is_space cs) && negb (is_nil rest)
  && forallb isdigit left && (3 <=? List.length left).

(** [init_bot] gives [None], or the updater, which stands here for the
    state the handlers start from. *)
Definition init_bot (env : Env) (lib : Library)
  : outcome (option State) * list event :=
  let TOKEN := getenv env "TELEGRAM_BOT_TOKEN" in
  match PyInt.of_string
          (match getenv env "PORT" with Some p => p | None => "8443" end)
  with
  | None => (Raise ValueError, [])
  | Some PORT =>
      let CHANNEL_ID := getenv env "TELEGRAM_CHANNEL_ID" in
      let FILE_ID := getenv env "TELEGRAM_MODEL_FILE_ID" in
      if falsy TOKEN || falsy CHANNEL_ID || falsy FILE_ID then
        (Return None, [LogError "Missing required environment variables."])
      else if validate_token (match TOKEN with Some t => t | None => "" end)
      then
        let (m, ev) := load_or_train_model FILE_ID (download lib) in
        (Return (Some {| historical_data := [];
                         feedback_data := [];
                         model := m;
                         MODEL_FILE_ID := FILE_ID;
                         user_data := {| predicted_value := None;
                                         feedback := None |};
                         channel := uploads lib;
                         missing_values := nan_is_missing lib |}), ev)
      else (Raise InvalidToken, [])
  end.

End Bot.

(** ** Conversations and the vocabulary of the specification *)

Module Session.
Import PyStr Bot.

(** One invocation of a handler with the text of a message. *)
Inductive call : Type :=
| CrashPoints (text : string)
| Feedback (text : string)
| ActualValue (text : string)
| Clear.

Definition handle (c : call) : M unit :=
  match c with
  | CrashPoints text => process_crash_points text
  | Feedback text => process_feedback text
  | ActualValue text => process_actual_value text
  | Clear => clear_data
  end.

(** The process goes on after a handler raised: the dispatcher reports the
    exception to [error_handler] and takes the next update. *)
Definition run (calls : list call) (st : State) : State :=
  fold_left (fun s c => final (handle c s)) calls st.

(** A state [init_bot] can hand to the handlers. *)
Definition started (st : State) : Prop :=
  exists env lib ev, init_bot env lib = (Return (Some st), ev).

Definition reachable (st : State) : Prop :=
  exists st0 calls, started st0 /\ st = run calls st0.

(** A non-negative decimal numeral: the digits [ip], then, when [fp] is
    not empty, a point and the digits [fp]. *)
Definition decimal_chars (ip fp : list ascii) : list ascii :=
  (ip ++ (if is_nil fp then [] else "."%char :: fp))%list.

Definition digits (ds : list ascii) : Prop :=
  Forall (fun c => is_digit c = true) ds.

Definition decimal (s : string) (ip fp : list ascii) : Prop :=
  ip <> [] /\ digits ip /\ digits fp /\ chars s = decimal_chars ip fp.

(** A positive decimal: a decimal numeral of a value above zero. *)
Definition positive_decimal (s : string) : Prop :=
  exists ip fp,
    decimal s ip fp /\ (0 < PyFloat.digits_value (ip ++ fp)%list)%Z.

(** An actual value that [process_actual_value] lets through. *)
Definition accepted_actual_value (v : string) (x : float) : Prop :=
  Re.match_decimal v = true /\
  PyFloat.of_string v = Some x /\ PyFloat.le_zero x = false.

(** The numbers [float] gives for a list of strings, when it accepts each
    of them. *)
Definition numbers_of (points : list string) (numbers : list float) : Prop :=
  map PyFloat.of_string points = map Some numbers.

(** The rows of the training frame: [CrashPoints] next to [NextOutcome]. *)
Definition training_pairs (X y : list float) : list (float * float) :=
  combine X y.


(** The state after the corrective append of [x]. *)
Definition appended (x : float) (st : State) : State :=
  set_historical_data (historical_data st ++ [PyFloat.to_string x]) st.

(** The state and the log record that [upload_model] leaves. *)
Definition uploaded (st : State) : State :=
  let st1 := set_channel (fun n => channel st (S n)) st in
  match channel st 0 with
  | Done file_id => set_MODEL_FILE_ID (Some file_id) st1
  | Failed _ => st1
  end.

Definition upload_log (st : State) : event :=
  match channel st 0 with
  | Done _ => LogInfo "Updated model file uploaded to Telegram channel."
  | Failed e => LogError ("Failed to upload model to Telegram: " ++ e)
  end.

Definition updating : event :=
  LogInfo "Feedback: Prediction was incorrect. Updating model...".

(** *** The sentences of the specification that the code does not follow,
        as they are written *)

(** On every ledger of two or more valid numeric strings, the prediction
    fits the model on the pairs of neighbours and predicts from the last
    value. *)
Definition predict_fits_every_valid_ledger : Prop :=
  forall (ledger : list string) (st : State),
    Forall (fun p => Re.match_decimal p = true) ledger ->
    2 <= List.length ledger ->
    exists numbers,
      numbers_of ledger numbers /\
      let X := removelast numbers in
      let y := tl numbers in
      let r := predict_aviator_outcome ledger st in
      model (final r) = Fitted X y /\
      exists m,
        result r =
        Return (m, Some (RF_predict X y (last numbers PyFloat.zero))).


(** Feedback "no" with a valid positive actual value appends exactly one
    element and triggers exactly one refit. *)
Definition no_feedback_refits_once : Prop :=
  forall (st : State) (text : string) (x : float),
    feedback (user_data st) = Some "no" ->
    accepted_actual_value (strip text) x ->
    let r := process_actual_value text st in
    (exists e, historical_data (final r) = historical_data st ++ [e])%list /\
    count_fits (effects r) = 1.

(** The bulk append keeps the entries that match the numeric pattern, in
    order, and drops the others. *)
Definition bulk_append_filters : Prop :=
  forall (st : State) (text : string),
    historical_data (final (process_crash_points text st)) =
    (historical_data st ++ filter Re.match_decimal (crash_points_of text))%list.

(** Once an actual value was accepted and processed, the pending
    prediction is gone, and a feedback token is told so. *)
Definition pending_cleared_on_resolution : Prop :=
  forall (st : State) (text token : string),
    let r := process_actual_value text st in
    In (Reply thank_you) (effects r) ->
    predicted_value (user_data (final r)) = None /\
    effects (process_feedback token (final r)) = [Reply no_recent_prediction].

(** With a token and a channel identifier, the bot starts without a model
    file identifier. *)
Definition model_file_id_optional : Prop :=
  forall (env : Env) (lib : Library),
    falsy (getenv env "TELEGRAM_BOT_TOKEN") = false ->
    falsy (getenv env "TELEGRAM_CHANNEL_ID") = false ->
    getenv env "PORT" = None ->
    exists st ev, init_bot env lib = (Return (Some st), ev).

(** Characters that [float] does not strip. *)
Definition no_space (cs : list ascii) : Prop :=
  Forall (fun c => PyFloat.is_float_space c = false) cs.

End Session.

(** ** States and environments of the examples *)

Module Examples.
Import Bot Session.

(** The floats of [2.0], [3.0] and [4.0]. *)
Definition two : float := S754_finite false 4503599627370496 (-51).
Definition three : float := S754_finite false 6755399441055744 (-51).
Definition four : float := S754_finite false 4503599627370496 (-50).

(** The state in which the handlers start when no stored model could be
    used: the forest was never fitted. *)
(** A channel that is out of reach: the download and every upload raise
    [NetworkError]. *)
Definition offline : Library :=
  {| download := Failed "Network is unreachable";
     uploads := fun _ => Failed "Network is unreachable";
     nan_is_missing := false |}.

Definition idle : State :=
  {| historical_data := []; feedback_data := []; model := Unfitted;
     MODEL_FILE_ID := Some "BQACAgQAAx0";
     user_data := {| predicted_value := None; feedback := None |};
     channel := uploads offline;
     missing_values := nan_is_missing offline |}.

(** The state after the observations [2.0, 3.0] and the feedback "no". *)
Definition corrected_once : State :=
  run [CrashPoints "2.0, 3.0"; Feedback "no"] idle.

(** The state after the observations [2.0, 3.0], the clear command and
    the feedback "no": the ledger is empty and a prediction is pending. *)
Definition cleared_pending : State :=
  run [CrashPoints "2.0, 3.0"; Clear; Feedback "no"] idle.

(** The state after the observations [abc, 2, 3] and the feedback "no". *)
Definition tainted : State :=
  run [CrashPoints "abc, 2, 3"; Feedback "no"] idle.


(** Ten to the thirty-ninth: a valid numeric string above every float32. *)
Definition beyond_float32 : string :=
  "1000000000000000000000000000000000000000".

(** An environment with the token and the channel, and no identifier of a
    stored model file. *)
Definition without_file_id : Env :=
  [("TELEGRAM_BOT_TOKEN", "123456:token");
   ("TELEGRAM_CHANNEL_ID", "-1001234567890")].

Definition with_file_id : Env :=
  ("TELEGRAM_MODEL_FILE_ID", "BQACAgQAAx0") :: without_file_id.

End Examples.

(** ** The other handlers, the error handler and the start of the process *)

Module Service.
Import PyStr Bot Session.

Definition newline : string := String "010"%char EmptyString.

Definition welcome : message :=
  Text "Welcome to the Aviator Prediction Bot! Enter crash points separated by commas to get predictions.".

Definition usage : message :=
  Text ("To use this bot:" ++ newline ++
        "- Enter crash points separated by commas (e.g., 2.5, 3.1, 4.0)."
        ++ newline ++
        "- The bot will analyze the data and predict the next outcome."
        ++ newline ++
        "- Provide feedback ('yes' or 'no') to help the bot learn.").

Definition start : M unit := emit (Reply welcome).

Definition help_command : M unit := emit (Reply usage).

(** An update that reaches a handler: one of the three commands, or a text
    for one of the three message handlers. *)
Inductive request : Type :=
| Start
| Help
| Call (c : call).

Definition serve (r : request) : M unit :=
  match r with
  | Start => start
  | Help => help_command
  | Call c => handle c
  end.

(** What the chat and the log see of an update: the effects of its
    handler and, when the handler raised, those of [error_handler]. *)
Inductive output : Type :=
| Effect (e : event)
  (** [logger.error] of the update and of the exception it caused. *)
| ErrorLogged (r : request) (e : exn)
  (** [context.bot.send_message] to the chat of the update. *)
| Sent (text : string).

Definition error_handler (r : request) (e : exn) : list output :=
  [ErrorLogged r e;
   Sent "An unexpected error occurred. Please try again later."].

(** The dispatcher runs the handler and hands an exception it raises to
    the error handler; the state the handler left stays. *)
Definition dispatch (r : request) (st : State) : State * list output :=
  match serve r st with
  | (Return _, st1, ev) => (st1, map Effect ev)
  | (Raise e, st1, ev) => (st1, (map Effect ev ++ error_handler r e)%list)
  end.

Definition serve_all (rs : list request) (st : State) : State :=
  fold_left (fun s r => fst (dispatch r s)) rs st.

(** A message that the user gets. *)
Definition is_message (o : output) : bool :=
  match o with
  | Effect (Reply _) => true
  | Sent _ => true
  | _ => false
  end.

(** *** [main] *)

(** What [main] starts. *)
Inductive action : Type :=
| Logged (e : event)
| StartWebhook (listen : string) (port : Z) (url_path : option string)
               (webhook_url : string)
| StartPolling
| Idle.

(** [str(v)] inside an f-string, for the result of [os.getenv]. *)
Definition format (v : option string) : string :=
  match v with Some s => s | None => "None" end.

(** [updater] is what [init_bot] gave when the module was loaded. *)
Definition main (updater : option State) (env : Env)
  : outcome unit * list action :=
  match updater with
  | None =>
      (Return tt, [Logged (LogError "Bot initialization failed. Exiting...")])
  | Some _ =>
      let polling :=
        (Return tt,
         [Logged (LogInfo "Starting polling mode (local testing)");
          StartPolling; Idle]) in
      match getenv env "HEROKU_APP_NAME" with
      | Some name =>
          if truthy name then
            let HEROKU_URL := "https://" ++ name ++ ".herokuapp.com/" in
            let webhook_url :=
              HEROKU_URL ++ format (getenv env "TELEGRAM_BOT_TOKEN") in
            let starting :=
              Logged (LogInfo ("Starting webhook on " ++ webhook_url)) in
            match PyInt.of_string
                    (match getenv env "PORT" with
                     | Some p => p | None => "8443" end)
            with
            | Some port =>
                (Return tt,
                 [starting;
                  StartWebhook "0.0.0.0" port
                    (getenv env "TELEGRAM_BOT_TOKEN") webhook_url;
                  Idle])
            | None => (Raise ValueError, [starting])
            end
          else polling
      | None => polling
      end
  end.

(** *** Notions for the statements *)

(** Runs of white space, and runs without any. *)
Definition blanks (cs : list ascii) : Prop :=
  Forall (fun c => is_space c = true) cs.

Definition no_blank (cs : list ascii) : Prop :=
  Forall (fun c => is_space c = false) cs.

(** The entries of a run of characters: the stripped pieces between the
    commas that are not empty. *)
Definition pieces (cs : list ascii) : list string :=
  filter truthy
    (map (fun w => str (strip_chars w)) (split_chars ","%char cs)).

(** A ledger whose valid numbers are all within the range of float32. *)
Definition within_float32 (ledger : list string) : Prop :=
  forall p x,
    In p ledger -> Re.match_decimal p = true ->
    PyFloat.of_string p = Some x -> finite32 x = true.

(** The forest has been fitted. *)
Definition fitted (st : State) : Prop :=
  exists X y, model st = Fitted X y.

(** A pending prediction comes from a fitted forest. *)
Definition pending_fitted (st : State) : Prop :=
  predicted_value (user_data st) = None \/ fitted st.

End Service.


(** ** Facts about strings, the numeric pattern and [float] *)

Module StrFacts.
Import PyStr Re Session.

Lemma chars_str (cs : list ascii) : chars (str cs) = cs.
Proof. apply list_ascii_of_string_of_list_ascii. Qed.

Lemma chars_strip (s : string) : chars (strip s) = strip_chars (chars s).
Proof. unfold strip. apply chars_str. Qed.

(** Case analysis on the 256 characters. *)
Ltac by_cases_on c :=
  destruct c as [[|] [|] [|] [|] [|] [|] [|] [|]];
  try discriminate; try reflexivity.

Lemma digit_not_float_space c :
  is_digit c = true -> PyFloat.is_float_space c = false.
Proof. by_cases_on c. Qed.

Lemma digit_not_underscore c :
  is_digit c = true -> Ascii.eqb c "_"%char = false.
Proof. by_cases_on c. Qed.

Lemma digit_value_range c :
  is_digit c = true -> (0 <= PyFloat.digit_value c <= 9)%Z.
Proof. by_cases_on c; intros _; vm_compute; split; discriminate. Qed.

Lemma span_spec (p : ascii -> bool) (cs a b : list ascii) :
  span p cs = (a, b) ->
  cs = (a ++ b)%list /\ Forall (fun c => p c = true) a /\
  (b = [] \/ exists c r, b = c :: r /\ p c = false).
Proof.
  revert a b. induction cs as [|c r IH]; simpl; intros a b H.
  - inversion H; subst. repeat split; auto.
  - destruct (p c) eqn:Hc.
    + destruct (span p r) as [a' b'] eqn:Hr. inversion H; subst.
      destruct (IH a' b eq_refl) as (-> & Ha & Hb).
      repeat split; auto.
    + inversion H; subst. repeat split; auto.
      right. exists c, r. auto.
Qed.

Lemma span_app (p : ascii -> bool) (a b : list ascii) :
  Forall (fun c => p c = true) a ->
  (b = [] \/ exists c r, b = c :: r /\ p c = false) ->
  span p (a ++ b) = (a, b).
Proof.
  intros Ha Hb. induction Ha as [|c a Hc Ha IH]; simpl.
  - destruct Hb as [-> | (c & r & -> & Hc)]; simpl; [reflexivity|].
    now rewrite Hc.
  - now rewrite Hc, IH.
Qed.

Lemma span_all (p : ascii -> bool) (a : list ascii) :
  Forall (fun c => p c = true) a -> span p a = (a, []).
Proof.
  intros Ha. rewrite <- (app_nil_r a) at 1. apply span_app; auto.
Qed.

Lemma at_dollar_spec (cs : list ascii) :
  at_dollar cs = true <-> cs = [] \/ cs = ["010"%char].
Proof.
  destruct cs as [|c [|d r]]; simpl; split; intros H; auto;
    try discriminate.
  - apply Ascii.eqb_eq in H. subst. auto.
  - destruct H as [H | H]; [discriminate | inversion H; reflexivity].
  - destruct H as [H | H]; discriminate.
Qed.

(** A string matches the numeric pattern exactly when it is a decimal
    numeral, possibly followed by one newline. *)
Lemma match_decimal_chars_spec (cs : list ascii) :
  match_decimal_chars cs = true <->
  exists ip fp nl,
    ip <> [] /\ digits ip /\ digits fp /\ at_dollar nl = true /\
    cs = (decimal_chars ip fp ++ nl)%list.
Proof.
  unfold match_decimal_chars, decimal_chars, digits. split.
  - destruct (span is_digit cs) as [ip r1] eqn:Hs.
    destruct (span_spec _ _ _ _ Hs) as (-> & Hip & Hr1).
    intros H. apply andb_true_iff in H. destruct H as [Hn H].
    assert (ip <> []) by (destruct ip; [discriminate | congruence]).
    apply orb_true_iff in H. destruct H as [H | H].
    + exists ip, [], r1. simpl. rewrite app_nil_r. auto.
    + destruct r1 as [|c r]; [discriminate|].
      apply andb_true_iff in H. destruct H as [Hc H].
      apply Ascii.eqb_eq in Hc. subst c.
      destruct (span is_digit r) as [fp r2] eqn:Hs2.
      destruct (span_spec _ _ _ _ Hs2) as (-> & Hfp & _).
      apply andb_true_iff in H. destruct H as [Hfn H].
      exists ip, fp, r2. destruct fp; [discriminate|]. simpl.
      rewrite <- app_assoc. simpl. auto.
  - intros (ip & fp & nl & Hnn & Hip & Hfp & Hnl & ->).
    assert (Hend : forall t, at_dollar t = true ->
              t = [] \/ exists c r, t = c :: r /\ is_digit c = false).
    { intros t Ht. apply at_dollar_spec in Ht. destruct Ht as [-> | ->];
        [auto | right; eexists _, _; split; reflexivity]. }
    destruct fp as [|f fp]; simpl.
    + rewrite app_nil_r, (span_app is_digit ip nl Hip (Hend nl Hnl)).
      rewrite Hnl. destruct ip; [congruence | reflexivity].
    + rewrite <- app_assoc. simpl.
      rewrite (span_app is_digit ip); [| assumption |
        right; eexists _, _; split; reflexivity].
      change (f :: fp ++ nl)%list with ((f :: fp) ++ nl)%list.
      rewrite (span_app is_digit (f :: fp) nl Hfp (Hend nl Hnl)).
      rewrite Hnl. destruct ip; [congruence|]. simpl.
      reflexivity.
Qed.

Lemma lstrip_chars_head (cs r : list ascii) (c : ascii) :
  lstrip_chars cs = c :: r -> is_space c = false.
Proof.
  induction cs as [|d cs IH]; simpl; [discriminate|].
  destruct (is_space d) eqn:Hd; [exact IH|].
  intros H. inversion H; subst. exact Hd.
Qed.

(** [strip] leaves no white space at the end. *)
Lemma strip_chars_last (cs l : list ascii) (c : ascii) :
  strip_chars cs = (l ++ [c])%list -> is_space c = false.
Proof.
  unfold strip_chars, rstrip_chars. intros H.
  apply (f_equal (@rev ascii)) in H.
  rewrite rev_involutive, rev_app_distr in H. simpl in H.
  eapply lstrip_chars_head; eassumption.
Qed.

(** A stripped string that matches the numeric pattern is a decimal
    numeral: the newline that [$] tolerates is gone. *)
Lemma match_decimal_strip (text : string) :
  match_decimal (strip text) = true ->
  exists ip fp, decimal (strip text) ip fp.
Proof.
  unfold match_decimal. intros H.
  apply match_decimal_chars_spec in H.
  destruct H as (ip & fp & nl & Hnn & Hip & Hfp & Hnl & Hcs).
  exists ip, fp. unfold decimal. repeat split; auto.
  apply at_dollar_spec in Hnl. destruct Hnl as [-> | ->].
  - now rewrite app_nil_r in Hcs.
  - rewrite chars_strip in Hcs. apply strip_chars_last in Hcs.
    discriminate.
Qed.

End StrFacts.

Module FloatFacts.
Import PyStr Re Session StrFacts.

Lemma lstrip_space_id (cs : list ascii) :
  no_space cs -> PyFloat.lstrip_space cs = cs.
Proof. intros H. destruct H as [|c r Hc _]; simpl; [|rewrite Hc]; auto. Qed.

(** [float] strips nothing from characters that are no white space,
    except one newline after them. *)
Lemma strip_space_numeral (core nl : list ascii) :
  core <> [] -> no_space core -> at_dollar nl = true ->
  PyFloat.strip_space (core ++ nl) = core.
Proof.
  intros Hne Hc Hnl. unfold PyFloat.strip_space.
  assert (Hl : PyFloat.lstrip_space (core ++ nl) = (core ++ nl)%list).
  { destruct Hc as [|c r Hc _]; [congruence|]. simpl. now rewrite Hc. }
  rewrite Hl, rev_app_distr.
  assert (Hr : PyFloat.lstrip_space (rev core) = rev core).
  { apply lstrip_space_id. unfold no_space. apply Forall_rev. exact Hc. }
  apply at_dollar_spec in Hnl. destruct Hnl as [-> | ->]; simpl;
    rewrite Hr; apply rev_involutive.
Qed.

Lemma drop_underscores_none (cs : list ascii) (prev : ascii) :
  Forall (fun c => Ascii.eqb c "_"%char = false) cs ->
  Ascii.eqb prev "_"%char = false ->
  PyFloat.drop_underscores prev cs = Some cs.
Proof.
  intros H. revert prev. induction H as [|c cs Hc _ IH]; simpl; intros prev Hp.
  - now rewrite Hp.
  - rewrite Hc, Hp. simpl. now rewrite IH.
Qed.

Lemma split_sign_digit (d : ascii) (r : list ascii) :
  is_digit d = true -> PyFloat.split_sign (d :: r) = (false, d :: r).
Proof. by_cases_on d. Qed.

Lemma is_word_digit (w : string) (d : ascii) (r : list ascii) :
  is_digit d = true ->
  (w = "inf" \/ w = "infinity" \/ w = "nan") ->
  PyFloat.is_word w (d :: r) = false.
Proof.
  intros Hd Hw. unfold PyFloat.is_word. simpl.
  destruct Hw as [-> | [-> | ->]]; simpl;
    (replace (Ascii.eqb (PyFloat.tolower d) _) with false;
       [reflexivity | revert Hd; by_cases_on d]).
Qed.

(** The characters of a decimal numeral are digits and at most one
    point. *)
Lemma decimal_chars_plain (ip fp : list ascii) :
  digits ip -> digits fp ->
  no_space (decimal_chars ip fp) /\
  Forall (fun c => Ascii.eqb c "_"%char = false) (decimal_chars ip fp).
Proof.
  intros Hip Hfp. unfold decimal_chars, no_space.
  assert (Hs : forall ds, digits ds ->
            Forall (fun c => PyFloat.is_float_space c = false) ds).
  { intros ds H. eapply Forall_impl; [|exact H].
    apply digit_not_float_space. }
  assert (Hu : forall ds, digits ds ->
            Forall (fun c => Ascii.eqb c "_"%char = false) ds).
  { intros ds H. eapply Forall_impl; [|exact H].
    apply digit_not_underscore. }
  destruct fp as [|f fp]; simpl; split; apply Forall_app; split; auto;
    constructor; auto.
Qed.

(** On a decimal numeral, possibly followed by a newline, [float] gives
    the binary64 number nearest to its value. *)
Lemma of_string_decimal (s : string) (ip fp nl : list ascii) :
  ip <> [] -> digits ip -> digits fp -> at_dollar nl = true ->
  chars s = (decimal_chars ip fp ++ nl)%list ->
  PyFloat.of_string s =
  Some (PyFloat.of_decimal false (PyFloat.digits_value (ip ++ fp))
          (0 - Z.of_nat (List.length fp))).
Proof.
  intros Hne Hip Hfp Hnl Hs. unfold PyFloat.of_string. rewrite Hs.
  destruct (decimal_chars_plain ip fp Hip Hfp) as [Hsp Hun].
  assert (Hcore : decimal_chars ip fp <> []).
  { unfold decimal_chars. destruct ip; [congruence | discriminate]. }
  rewrite (strip_space_numeral _ nl Hcore Hsp Hnl).
  rewrite (drop_underscores_none _ "000"%char Hun eq_refl).
  unfold PyFloat.parse_number, decimal_chars.
  destruct ip as [|d ip]; [congruence|].
  assert (Hd : is_digit d = true) by now inversion Hip.
  change ((d :: ip) ++ (if is_nil fp then [] else "."%char :: fp))%list
    with (d :: (ip ++ (if is_nil fp then [] else "."%char :: fp)))%list.
  rewrite (split_sign_digit _ _ Hd).
  rewrite !(is_word_digit _ _ _ Hd) by auto. simpl orb. cbv iota.
  change (d :: (ip ++ (if is_nil fp then [] else "."%char :: fp)))%list
    with ((d :: ip) ++ (if is_nil fp then [] else "."%char :: fp))%list.
  rewrite (span_app is_digit (d :: ip)); [| exact Hip |
    destruct fp; simpl; [left; reflexivity |
                         right; eexists _, _; split; reflexivity]].
  destruct fp as [|f fp]; simpl.
  - reflexivity.
  - inversion Hfp; subst.
    match goal with H : is_digit f = true |- _ => rewrite H end.
    rewrite (span_all is_digit fp) by assumption. reflexivity.
Qed.

Lemma match_decimal_of_string (s : string) :
  match_decimal s = true -> exists x, PyFloat.of_string s = Some x.
Proof.
  unfold match_decimal. intros H. apply match_decimal_chars_spec in H.
  destruct H as (ip & fp & nl & Hne & Hip & Hfp & Hnl & Hs).
  eexists. eapply of_string_decimal; eauto.
Qed.

Lemma digits_value_nonneg (ds : list ascii) :
  digits ds -> (0 <= PyFloat.digits_value ds)%Z.
Proof.
  unfold PyFloat.digits_value. intros H.
  assert (G : forall acc, (0 <= acc)%Z ->
            (0 <= fold_left
                    (fun a c => 10 * a + PyFloat.digit_value c)%Z ds acc)%Z).
  { induction H as [|c ds Hc _ IH]; cbn [fold_left]; intros acc Hacc;
      [assumption|].
    apply IH. pose proof (digit_value_range c Hc). lia. }
  apply G. lia.
Qed.

(** A numeral whose float is above zero has a value above zero. *)
Lemma of_decimal_positive (m e : Z) :
  PyFloat.le_zero (PyFloat.of_decimal false m e) = false -> (0 < m)%Z.
Proof. destruct m; simpl; intros H; [discriminate | lia | discriminate]. Qed.

End FloatFacts.

(** ** Facts about the computations of the bot *)

Module BotFacts.
Import PyStr Bot Session StrFacts FloatFacts.

Lemma numbers_of_length (points : list string) (numbers : list float) :
  numbers_of points numbers -> List.length numbers = List.length points.
Proof.
  unfold numbers_of. intros H. apply (f_equal (@List.length _)) in H.
  now rewrite !length_map in H.
Qed.

Lemma numbers_of_valid (points : list string) :
  Forall (fun p => Re.match_decimal p = true) points ->
  exists numbers, numbers_of points numbers.
Proof.
  unfold numbers_of. induction 1 as [|p r Hp _ (numbers & IH)].
  - now exists [].
  - destruct (match_decimal_of_string p Hp) as (x & Hx).
    exists (x :: numbers). simpl. now rewrite Hx, IH.
Qed.

Lemma filter_valid (points : list string) :
  Forall (fun p => Re.match_decimal p = true)
         (filter Re.match_decimal points).
Proof. apply Forall_forall. intros p Hp. now apply filter_In in Hp. Qed.

Lemma filter_all_valid (points : list string) :
  Forall (fun p => Re.match_decimal p = true) points ->
  filter Re.match_decimal points = points.
Proof.
  induction 1 as [|p r Hp _ IH]; simpl; [reflexivity|].
  now rewrite Hp, IH.
Qed.

Lemma filter_none_valid (points : list string) :
  Forall (fun p => Re.match_decimal p = false) points ->
  filter Re.match_decimal points = [].
Proof.
  induction 1 as [|p r Hp _ IH]; simpl; [reflexivity|].
  now rewrite Hp, IH.
Qed.

(** [floats] returns the numbers when [float] accepts every string. *)
Lemma floats_returns (points : list string) (numbers : list float)
      (st : State) :
  numbers_of points numbers ->
  floats points st = (Return numbers, st, []).
Proof.
  unfold numbers_of. revert numbers.
  induction points as [|p r IH]; intros [|x xs] H; try discriminate.
  - reflexivity.
  - simpl in H. injection H as Hp Hr.
    cbn [floats]. unfold bind, to_float. rewrite Hp. cbn.
    rewrite (IH xs Hr). reflexivity.
Qed.

(** [floats] raises [ValueError], with no other effect, when [float]
    refuses one of the strings. *)
Lemma floats_raises (points : list string) (st : State) :
  (exists e, In e points /\ PyFloat.of_string e = None) ->
  floats points st = (Raise ValueError, st, []).
Proof.
  intros (e & Hin & He). induction points as [|p r IH]; [contradiction|].
  cbn [floats]. unfold bind, to_float.
  destruct (PyFloat.of_string p) as [x|] eqn:Hp; cbn.
  - destruct Hin as [-> | Hin]; [congruence|].
    rewrite (IH Hin). reflexivity.
  - reflexivity.
Qed.

(** Either every string is accepted or one is refused. *)
Lemma numbers_of_dec (points : list string) :
  (exists numbers, numbers_of points numbers) \/
  (exists e, In e points /\ PyFloat.of_string e = None).
Proof.
  unfold numbers_of. induction points as [|p r [(numbers & IH) | (e & Hin & He)]].
  - left. now exists [].
  - destruct (PyFloat.of_string p) as [x|] eqn:Hp.
    + left. exists (x :: numbers). simpl. now rewrite Hp, IH.
    + right. exists p. simpl. auto.
  - right. exists e. simpl. auto.
Qed.

(** [fit] records the call, then takes the frame or raises. *)
Lemma fit_run (X y : list float) (st : State) :
  fit X y st =
  if frame_ok (missing_values st) X y
  then (Return tt, set_model (Fitted X y) st, [Fit X y])
  else (Raise ValueError, st, [Fit X y]).
Proof.
  unfold fit, bind, emit, gets, modify, raise. cbv beta iota.
  destruct (frame_ok (missing_values st) X y); reflexivity.
Qed.

Lemma predict_call_run (x : float) (st : State) :
  predict x st =
  match model st with
  | Unfitted => (Raise NotFittedError, st, [])
  | Fitted X y =>
      if feature_ok (missing_values st) x
      then (Return (RF_predict X y x), st, [])
      else (Raise ValueError, st, [])
  end.
Proof.
  unfold predict, bind, gets, raise, ret. cbv beta iota.
  destruct (model st) as [|X y]; [reflexivity|]. cbv beta iota.
  destruct (feature_ok (missing_values st) x); reflexivity.
Qed.

(** What [predict_aviator_outcome] does, by the number of valid entries
    and by what the regressor takes. *)
Lemma predict_run (crash_points : list string) (numbers : list float)
      (st : State) :
  numbers_of (filter Re.match_decimal crash_points) numbers ->
  predict_aviator_outcome crash_points st =
  match numbers with
  | [] => (Return (no_valid_data, None), st, [])
  | [x] =>
      match model st with
      | Unfitted => (Raise NotFittedError, st, [])
      | Fitted X y =>
          if feature_ok (missing_values st) x
          then (Return (PredictionText numbers (RF_predict X y x),
                        Some (RF_predict X y x)), st, [])
          else (Raise ValueError, st, [])
      end
  | _ =>
      let X := removelast numbers in
      let y := tl numbers in
      let x := last numbers PyFloat.zero in
      let p := RF_predict X y x in
      if frame_ok (missing_values st) X y then
        if feature_ok (missing_values st) x
        then (Return (PredictionText numbers p, Some p),
              set_model (Fitted X y) st, [Fit X y; Dump])
        else (Raise ValueError, set_model (Fitted X y) st, [Fit X y; Dump])
      else (Raise ValueError, st, [Fit X y])
  end.
Proof.
  intros H. unfold predict_aviator_outcome, bind at 1.
  rewrite (floats_returns _ _ st H).
  destruct numbers as [|x [|x2 r]].
  - reflexivity.
  - cbn [List.length Nat.eqb Nat.ltb Nat.leb].
    unfold bind, ret. cbv beta iota. rewrite predict_call_run.
    destruct (model st) as [|X y]; [reflexivity|].
    cbn [last]. destruct (feature_ok (missing_values st) x); reflexivity.
  - cbn [List.length Nat.eqb Nat.ltb Nat.leb]. cbv zeta.
    unfold bind, ret, emit. cbv beta iota. rewrite fit_run.
    destruct (frame_ok (missing_values st) _ _); [|reflexivity].
    rewrite predict_call_run.
    cbn [model set_model missing_values].
    destruct (feature_ok (missing_values st) _); reflexivity.
Qed.

Lemma update_yes (fb : string) (x : float) (pv : option prediction)
      (st : State) :
  lower fb = "yes" ->
  update_model_with_feedback (Some fb) x pv st =
  (Return tt, st, [LogInfo "Feedback: Prediction was correct."]).
Proof. intros H. unfold update_model_with_feedback. now rewrite H. Qed.

Lemma update_other (fb : string) (x : float) (pv : option prediction)
      (st : State) :
  lower fb <> "yes" -> lower fb <> "no" ->
  update_model_with_feedback (Some fb) x pv st =
  (Return tt, st, [LogWarning "Invalid feedback received."]).
Proof.
  intros Hy Hn. unfold update_model_with_feedback.
  apply String.eqb_neq in Hy, Hn. now rewrite Hy, Hn.
Qed.

Lemma upload_model_run (st : State) :
  upload_model st = (Return tt, uploaded st, [upload_log st]).
Proof.
  unfold upload_model, uploaded, upload_log, bind, gets, modify, emit.
  cbn. destruct (channel st 0) as [fid|e]; reflexivity.
Qed.

(** Feedback "no" runs the conversion of the whole ledger after the
    append, and fits on all of it when it has two numbers or more. *)
Lemma update_no_run (fb : string) (x : float) (pv : option prediction)
      (st : State) :
  lower fb = "no" ->
  update_model_with_feedback (Some fb) x pv st =
  match floats (historical_data (appended x st)) (appended x st) with
  | (Return numbers, st1, ev1) =>
      if 1 <? List.length numbers then
        let X := removelast numbers in
        let y := tl numbers in
        if frame_ok (missing_values st1) X y then
          let st2 := set_model (Fitted X y) st1 in
          (Return tt, uploaded st2,
           (updating :: ev1 ++ [Fit X y; Dump; upload_log st2])%list)
        else (Raise ValueError, st1, (updating :: ev1 ++ [Fit X y])%list)
      else (Return tt, st1, (updating :: ev1 ++ [])%list)
  | (Raise e, st1, ev1) => (Raise e, st1, updating :: ev1)
  end.
Proof.
  intros Hno. unfold update_model_with_feedback. rewrite Hno.
  cbn [String.eqb Ascii.eqb Bool.eqb andb].
  unfold bind at 1. cbn [emit]. unfold bind at 1. cbn [modify].
  unfold bind at 1. cbn [gets]. unfold bind at 1.
  fold (appended x st).
  destruct (floats (historical_data (appended x st)) (appended x st))
    as [[[numbers|e] st1] ev1]; [|reflexivity].
  destruct (1 <? List.length numbers); [|reflexivity].
  cbv zeta. unfold bind at 1. rewrite fit_run.
  destruct (frame_ok (missing_values st1) _ _); [|reflexivity].
  unfold bind, emit. cbv beta iota.
  rewrite upload_model_run. reflexivity.
Qed.

(** Feedback "no" on a ledger that [float] accepts entirely. *)
Lemma update_no_returns (fb : string) (x : float) (pv : option prediction)
      (st : State) (numbers : list float) :
  lower fb = "no" ->
  numbers_of (historical_data (appended x st)) numbers ->
  update_model_with_feedback (Some fb) x pv st =
  if 1 <? List.length numbers then
    let X := removelast numbers in
    let y := tl numbers in
    if frame_ok (missing_values st) X y then
      let st2 := set_model (Fitted X y) (appended x st) in
      (Return tt, uploaded st2, [updating; Fit X y; Dump; upload_log st2])
    else (Raise ValueError, appended x st, [updating; Fit X y])
  else (Return tt, appended x st, [updating]).
Proof.
  intros Hno Hnum. rewrite (update_no_run _ _ _ _ Hno).
  rewrite (floats_returns _ _ (appended x st) Hnum).
  destruct (1 <? List.length numbers); [|reflexivity].
  cbv zeta. change (missing_values (appended x st)) with (missing_values st).
  destruct (frame_ok (missing_values st) _ _); reflexivity.
Qed.

(** Feedback "no" on a ledger with an entry that [float] refuses: the
    value is appended, then the conversion raises and nothing is fitted. *)
Lemma update_no_raises (fb : string) (x : float) (pv : option prediction)
      (st : State) :
  lower fb = "no" ->
  (exists e, In e (historical_data (appended x st)) /\
             PyFloat.of_string e = None) ->
  update_model_with_feedback (Some fb) x pv st =
  (Raise ValueError, appended x st, [updating]).
Proof.
  intros Hno Hbad. rewrite (update_no_run _ _ _ _ Hno).
  rewrite (floats_raises _ (appended x st) Hbad). reflexivity.
Qed.

(** A refused actual value: one reply, nothing else. *)
Lemma actual_value_rejected (text : string) (st : State) :
  (Re.match_decimal (strip text) = false \/
   exists x, PyFloat.of_string (strip text) = Some x /\
             PyFloat.le_zero x = true) ->
  process_actual_value text st =
  (Return tt, st, [Reply invalid_actual_value]).
Proof.
  intros H. unfold process_actual_value, bind, gets, to_float, ret, emit.
  destruct (Re.match_decimal (strip text)) eqn:Hm; cbn.
  - destruct H as [H | (x & Hx & Hle)]; [discriminate|].
    rewrite Hx. cbn. rewrite Hle. reflexivity.
  - reflexivity.
Qed.

(** An accepted actual value goes to [update_model_with_feedback], and
    the thanks follow when that returns. *)
Lemma actual_value_accepted (text : string) (x : float) (st : State) :
  accepted_actual_value (strip text) x ->
  process_actual_value text st =
  match update_model_with_feedback (feedback (user_data st)) x
          (predicted_value (user_data st)) st with
  | (Return _, st1, ev1) => (Return tt, st1, (ev1 ++ [Reply thank_you])%list)
  | (Raise e, st1, ev1) => (Raise e, st1, ev1)
  end.
Proof.
  intros (Hm & Hx & Hle).
  unfold process_actual_value, bind, gets, to_float, ret, emit.
  rewrite Hm, Hx. cbn. rewrite Hle. cbn.
  destruct (update_model_with_feedback _ _ _ _) as [[[u|e] st1] ev1];
    reflexivity.
Qed.

(** Every actual value is refused or accepted. *)
Lemma actual_value_cases (v : string) :
  (Re.match_decimal v = false \/
   exists x, PyFloat.of_string v = Some x /\ PyFloat.le_zero x = true) \/
  exists x, accepted_actual_value v x.
Proof.
  unfold accepted_actual_value.
  destruct (Re.match_decimal v) eqn:Hm; [|auto].
  destruct (match_decimal_of_string v Hm) as (x & Hx).
  destruct (PyFloat.le_zero x) eqn:Hle; [left; right | right]; eauto.
Qed.

End BotFacts.

(** ** The training frame *)

Module FrameFacts.
Import Bot Session.

Section Columns.
Variable d : float.

Lemma removelast_cons2 (x x2 : float) (r : list float) :
  removelast (x :: x2 :: r) = x :: removelast (x2 :: r).
Proof. reflexivity. Qed.

Lemma pairs_length (numbers : list float) :
  List.length (training_pairs (removelast numbers) (tl numbers)) =
  List.length numbers - 1.
Proof.
  unfold training_pairs. induction numbers as [|x [|x2 r] IH];
    try reflexivity.
  rewrite removelast_cons2. cbn [tl combine List.length] in *.
  rewrite IH. lia.
Qed.

(** Row [i] of the frame pairs number [i] with number [i + 1]. *)
Lemma pairs_nth (numbers : list float) (i : nat) :
  S i < List.length numbers ->
  nth_error (training_pairs (removelast numbers) (tl numbers)) i =
  Some (nth i numbers d, nth (S i) numbers d).
Proof.
  unfold training_pairs. revert i.
  induction numbers as [|x [|x2 r] IH]; intros i Hi;
    try (cbn in Hi; lia).
  rewrite removelast_cons2. cbn [tl combine].
  destruct i as [|i]; [reflexivity|].
  cbn [nth_error]. cbn [tl] in IH. rewrite IH by (cbn in Hi |- *; lia).
  reflexivity.
Qed.

Lemma last_is_nth (numbers : list float) :
  last numbers d = nth (List.length numbers - 1) numbers d.
Proof.
  induction numbers as [|x [|x2 r] IH]; try reflexivity.
  change (last (x :: x2 :: r) d) with (last (x2 :: r) d). rewrite IH.
  cbn [List.length]. replace (S (S (List.length r)) - 1)
    with (S (S (List.length r) - 1)) by lia.
  reflexivity.
Qed.

End Columns.

End FrameFacts.

(** ** Facts about the handlers *)

Module HandlerFacts.
Import PyStr Bot Session Examples.
Import StrFacts FloatFacts BotFacts FrameFacts.



Lemma uploaded_historical_data (st : State) :
  historical_data (uploaded st) = historical_data st.
Proof. unfold uploaded. destruct (channel st 0) as [fid|e]; reflexivity. Qed.

Lemma uploaded_model (st : State) : model (uploaded st) = model st.
Proof. unfold uploaded. destruct (channel st 0) as [fid|e]; reflexivity. Qed.

Lemma uploaded_user_data (st : State) :
  user_data (uploaded st) = user_data st.
Proof. unfold uploaded. destruct (channel st 0) as [fid|e]; reflexivity. Qed.

(** [process_crash_points] extends the ledger, then predicts from all of
    it, and records the prediction when that returns. *)
Lemma crash_points_run (text : string) (st : State) :
  process_crash_points text st =
  let st1 :=
    set_historical_data (historical_data st ++ crash_points_of text) st in
  match predict_aviator_outcome (historical_data st1) st1 with
  | (Return r, st2, ev) =>
      (Return tt,
       set_user_data {| predicted_value := snd r;
                        feedback := feedback (user_data st2) |} st2,
       (ev ++ [Reply (fst r)])%list)
  | (Raise e, st2, ev) => (Raise e, st2, ev)
  end.
Proof.
  unfold process_crash_points, bind, modify, gets, emit.
  cbv beta iota zeta.
  destruct (predict_aviator_outcome _ _) as [[[r|e] st2] ev]; reflexivity.
Qed.

(** An actual value that gets through is a positive decimal. *)
Lemma accepted_is_positive_decimal (text : string) (x : float) :
  accepted_actual_value (strip text) x -> positive_decimal (strip text).
Proof.
  intros (Hm & Hx & Hle).
  destruct (match_decimal_strip text Hm) as (ip & fp & Hdec).
  exists ip, fp. split; [exact Hdec|].
  destruct Hdec as (Hne & Hip & Hfp & Hs).
  rewrite (of_string_decimal _ ip fp [] Hne Hip Hfp eq_refl) in Hx
    by (now rewrite app_nil_r).
  injection Hx as <-. eapply of_decimal_positive. exact Hle.
Qed.

Lemma is_fit_upload_log (st : State) : is_fit (upload_log st) = false.
Proof. unfold upload_log. destruct (channel st 0) as [fid|e]; reflexivity. Qed.

(** [process_actual_value] never touches the user data. *)
Lemma actual_value_keeps_user_data (text : string) (st : State) :
  user_data (final (process_actual_value text st)) = user_data st.
Proof.
  destruct (actual_value_cases (strip text)) as [Hrej | (x & Hacc)].
  { now rewrite (actual_value_rejected _ st Hrej). }
  rewrite (actual_value_accepted _ x st Hacc).
  destruct (feedback (user_data st)) as [fb|]; [|reflexivity].
  destruct (String.eqb_spec (lower fb) "yes") as [Hyes | Hnyes].
  { now rewrite (update_yes _ _ _ _ Hyes). }
  destruct (String.eqb_spec (lower fb) "no") as [Hno | Hnno].
  2:{ now rewrite (update_other _ _ _ _ Hnyes Hnno). }
  destruct (numbers_of_dec (historical_data (appended x st)))
    as [(numbers & Hnum) | Hbad].
  2:{ now rewrite (update_no_raises _ _ _ _ Hno Hbad). }
  rewrite (update_no_returns _ _ _ _ numbers Hno Hnum).
  destruct (1 <? List.length numbers); [|reflexivity].
  cbv zeta. destruct (frame_ok (missing_values st) _ _); [|reflexivity].
  cbn [final fst snd]. now rewrite uploaded_user_data.
Qed.

Lemma idle_started : started idle.
Proof. exists with_file_id, offline. eexists. reflexivity. Qed.

End HandlerFacts.

(** ** The claims of the specification *)

Import PyStr Bot Session Examples.
Import StrFacts FloatFacts BotFacts FrameFacts HandlerFacts.

(** C1, as the specification has it, fails on the ledger of [2.0] and ten
    to the thirty-ninth: the forest is fitted on the one pair, and the
    regressor then refuses the last value, which is no float32, so that no
    prediction is made. *)
Lemma predict_fits_every_valid_ledger_fails :
  ~ predict_fits_every_valid_ledger.
Proof.
  intros H.
  destruct (H ["2.0"; beyond_float32] idle) as (numbers & _ & Hrun).
  - repeat constructor.
  - simpl. lia.
  - cbv zeta in Hrun. destruct Hrun as (_ & m & Hres).
    vm_compute in Hres. discriminate.
Qed.

(** C1, amended.  On a ledger of [n >= 2] valid numeric strings,
    [predict_aviator_outcome] converts every entry, builds the [n - 1]
    training pairs (entry [i], entry [i + 1]) for [i] from [0] to [n - 2],
    and calls [model.fit] on exactly these.  When the regressor takes the
    frame, the model is fitted on it; when it also takes the last entry,
    the prediction is made from that entry.  When the regressor refuses
    the frame or the last entry, [ValueError] is raised. *)
Theorem predict_fits_consecutive_pairs
  (ledger : list string) (st : State)
  (Hvalid : Forall (fun p => Re.match_decimal p = true) ledger)
  (Hlen : 2 <= List.length ledger) :
  exists numbers,
    numbers_of ledger numbers /\
    let X := removelast numbers in
    let y := tl numbers in
    let x := nth (List.length ledger - 1) numbers PyFloat.zero in
    let p := RF_predict X y x in
    (List.length (training_pairs X y) = List.length ledger - 1 /\
     forall i, i < List.length ledger - 1 ->
       nth_error (training_pairs X y) i =
       Some (nth i numbers PyFloat.zero, nth (S i) numbers PyFloat.zero)) /\
    predict_aviator_outcome ledger st =
    if frame_ok (missing_values st) X y then
      if feature_ok (missing_values st) x
      then (Return (PredictionText numbers p, Some p),
            set_model (Fitted X y) st, [Fit X y; Dump])
      else (Raise ValueError, set_model (Fitted X y) st, [Fit X y; Dump])
    else (Raise ValueError, st, [Fit X y]).
Proof.
  destruct (numbers_of_valid ledger Hvalid) as (numbers & Hnum).
  pose proof (numbers_of_length _ _ Hnum) as Hl.
  exists numbers. split; [exact Hnum|].
  cbv zeta. rewrite <- Hl, <- last_is_nth. split; [split|].
  - apply pairs_length.
  - intros i Hi. apply pairs_nth. lia.
  - rewrite (predict_run ledger numbers st)
      by (rewrite filter_all_valid; assumption).
    destruct numbers as [|x [|x2 r]]; cbn in Hl; try lia. reflexivity.
Qed.

(** The ledger [2.0, 3.0, 4.0] gives the pairs [(2.0, 3.0)] and
    [(3.0, 4.0)] and a prediction from [4.0]. *)
Lemma predict_fits_consecutive_pairs_witness :
  predict_aviator_outcome ["2.0"; "3.0"; "4.0"] idle =
  (Return (PredictionText [two; three; four]
             (RF_predict [two; three] [three; four] four),
           Some (RF_predict [two; three] [three; four] four)),
   set_model (Fitted [two; three] [three; four]) idle,
   [Fit [two; three] [three; four]; Dump]) /\
  training_pairs [two; three] [three; four] = [(two, three); (three, four)].
Proof.
  destruct (predict_fits_consecutive_pairs ["2.0"; "3.0"; "4.0"] idle)
    as (numbers & Hnum & _ & Hrun).
  - repeat constructor.
  - simpl. lia.
  - vm_compute in Hnum.
    destruct numbers as [|n0 [|n1 [|n2 [|n3 r]]]]; try discriminate.
    injection Hnum as <- <- <-.
    split; [exact Hrun | reflexivity].
Defined.




(** C3, as the specification has it, fails on the empty ledger: the value
    is appended and nothing is fitted. *)
Lemma no_feedback_refits_once_fails : ~ no_feedback_refits_once.
Proof.
  intros H.
  destruct (H cleared_pending "3" three) as [_ Hcount].
  - reflexivity.
  - split; [|split]; reflexivity.
  - vm_compute in Hcount. discriminate.
Qed.

(** C3, amended.  Feedback "yes" leaves the ledger as it is and fits
    nothing.  Feedback "no" with an accepted actual value [x] appends
    [str(x)], exactly one element; and when [float] accepts every entry of
    the resulting ledger, the model is fitted once if the ledger was not
    empty before, and not at all if it was. *)
Theorem feedback_resolution_frame
  (text : string) (st : State) (fb : string)
  (Hfb : feedback (user_data st) = Some fb) :
  let r := process_actual_value text st in
  (lower fb = "yes" ->
   historical_data (final r) = historical_data st /\
   count_fits (effects r) = 0) /\
  (lower fb = "no" ->
   forall x, accepted_actual_value (strip text) x ->
     historical_data (final r) =
       (historical_data st ++ [PyFloat.to_string x])%list /\
     ((exists numbers, numbers_of (historical_data (final r)) numbers) ->
      count_fits (effects r) =
        if is_nil (historical_data st) then 0 else 1)).
Proof.
  cbv zeta. split.
  - intros Hyes.
    destruct (actual_value_cases (strip text)) as [Hrej | (x & Hacc)].
    + rewrite (actual_value_rejected _ st Hrej). split; reflexivity.
    + rewrite (actual_value_accepted _ x st Hacc), Hfb.
      rewrite (update_yes _ _ _ _ Hyes). split; reflexivity.
  - intros Hno x Hacc.
    rewrite (actual_value_accepted _ x st Hacc), Hfb.
    destruct (numbers_of_dec (historical_data (appended x st)))
      as [(numbers & Hnum) | Hbad].
    + rewrite (update_no_returns _ _ _ _ numbers Hno Hnum).
      pose proof (numbers_of_length _ _ Hnum) as Hl.
      cbn [appended historical_data set_historical_data] in Hl.
      rewrite length_app in Hl. cbn [List.length] in Hl.
      destruct (historical_data st) as [|e h] eqn:Hh.
      * replace (1 <? List.length numbers) with false
          by (symmetry; apply Nat.ltb_ge; cbn in Hl; lia).
        cbn [final fst snd appended historical_data set_historical_data].
        rewrite Hh. split; [reflexivity|]. intros _. reflexivity.
      * replace (1 <? List.length numbers) with true
          by (symmetry; apply Nat.ltb_lt; cbn in Hl; lia).
        cbv zeta. destruct (frame_ok (missing_values st) _ _).
        -- cbn [final fst snd effects].
           rewrite uploaded_historical_data.
           cbn [appended historical_data set_historical_data set_model].
           rewrite Hh. split; [reflexivity|]. intros _.
           unfold count_fits. cbn [app filter is_fit].
           rewrite is_fit_upload_log. reflexivity.
        -- cbn [final fst snd effects appended historical_data
                set_historical_data].
           rewrite Hh. split; reflexivity.
    + rewrite (update_no_raises _ _ _ _ Hno Hbad).
      cbn [final fst snd effects appended historical_data
           set_historical_data].
      split; [reflexivity|].
      intros (numbers & Hnum). exfalso.
      destruct Hbad as (e & Hin & He).
      unfold numbers_of in Hnum.
      cbn [appended historical_data set_historical_data] in Hin.
      clear - Hin He Hnum. revert numbers Hnum.
      induction (historical_data st ++ [PyFloat.to_string x])%list
        as [|p l IH]; [contradiction|].
      intros [|n numbers] Hnum; [discriminate|].
      cbn in Hnum. injection Hnum as Hp Hl.
      destruct Hin as [-> | Hin]; [congruence | eauto].
Qed.

(** The actual value [4] after [2.0, 3.0] and the feedback "no": one
    element more, one refit. *)
Lemma feedback_resolution_frame_witness :
  historical_data (final (process_actual_value "4" corrected_once)) =
    ["2.0"; "3.0"; "4.0"] /\
  count_fits (effects (process_actual_value "4" corrected_once)) = 1.
Proof.
  destruct (feedback_resolution_frame "4" corrected_once "no" eq_refl)
    as [_ Hno].
  destruct (Hno eq_refl four) as [Hledger Hcount].
  - split; [|split]; reflexivity.
  - split; [exact Hledger|].
    apply Hcount. exists [two; three; four]. reflexivity.
Defined.

(** C4, as the specification has it, fails on any entry that is not
    numeric: the bulk append stores it. *)
Lemma bulk_append_filters_fails : ~ bulk_append_filters.
Proof.
  intros H. specialize (H idle "abc, 2.0"). vm_compute in H. discriminate.
Qed.

(** C4, amended.  The bulk append stores every non-empty stripped piece
    of the message, in order, whether it is numeric or not.  The numeric
    pattern is applied when the prediction is made: the reply is built
    from the numbers of the matching entries of the whole ledger, in
    order, and says that there is no valid data when there are none. *)
Theorem bulk_append_keeps_every_entry (text : string) (st : State) :
  let r := process_crash_points text st in
  let ledger := (historical_data st ++ crash_points_of text)%list in
  historical_data (final r) = ledger /\
  exists numbers,
    numbers_of (filter Re.match_decimal ledger) numbers /\
    forall m, In (Reply m) (effects r) ->
      (numbers = [] /\ m = no_valid_data) \/
      (exists p, m = PredictionText numbers p).
Proof.
  cbv zeta. rewrite crash_points_run. cbv zeta.
  set (st1 := set_historical_data _ st).
  change (historical_data st ++ crash_points_of text)%list
    with (historical_data st1).
  destruct (numbers_of_valid _ (filter_valid (historical_data st1)))
    as (numbers & Hnum).
  rewrite (predict_run _ numbers st1 Hnum).
  destruct numbers as [|x [|x2 r]].
  - split; [reflexivity|]. exists []. split; [exact Hnum|].
    intros m [Hm | []]. injection Hm as <-. left. split; reflexivity.
  - destruct (model st1) as [|X y].
    + split; [reflexivity|]. exists [x]. split; [exact Hnum|].
      intros m [].
    + destruct (feature_ok (missing_values st1) x).
      * split; [reflexivity|]. exists [x]. split; [exact Hnum|].
        intros m [Hm | []]. injection Hm as <-. right. eexists. reflexivity.
      * split; [reflexivity|]. exists [x]. split; [exact Hnum|].
        intros m [].
  - cbv zeta. destruct (frame_ok (missing_values st1) _ _);
      [destruct (feature_ok (missing_values st1) _)|].
    + split; [reflexivity|]. exists (x :: x2 :: r). split; [exact Hnum|].
      intros m Hm. cbn in Hm.
      destruct Hm as [Hm | [Hm | [Hm | []]]]; try discriminate.
      injection Hm as <-. right. eexists. reflexivity.
    + split; [reflexivity|]. exists (x :: x2 :: r). split; [exact Hnum|].
      intros m Hm. cbn in Hm.
      destruct Hm as [Hm | [Hm | []]]; discriminate.
    + split; [reflexivity|]. exists (x :: x2 :: r). split; [exact Hnum|].
      intros m Hm. cbn in Hm.
      destruct Hm as [Hm | []]; discriminate.
Qed.

(** C5.  An actual value that is "0", that starts with a minus sign, or
    that is no positive decimal in any other way, is answered with the
    request for a positive number and leaves the whole state as it was:
    nothing is appended and nothing is fitted. *)
Theorem invalid_actual_value_rejected (text : string) (st : State)
  (Hbad : strip text = "0" \/
          (exists r, strip text = String "-"%char r) \/
          ~ positive_decimal (strip text)) :
  process_actual_value text st =
  (Return tt, st, [Reply invalid_actual_value]).
Proof.
  apply actual_value_rejected.
  destruct Hbad as [H0 | [(r & Hneg) | Hnp]].
  - right. exists PyFloat.zero. rewrite H0. split; reflexivity.
  - left. rewrite Hneg. reflexivity.
  - destruct (actual_value_cases (strip text)) as [H | (x & Hx)];
      [exact H|].
    contradiction Hnp. eapply accepted_is_positive_decimal. exact Hx.
Qed.

(** The texts " 0 ", "-2.5" and "1e3" are refused. *)
Lemma invalid_actual_value_rejected_witness :
  process_actual_value " 0 " idle =
    (Return tt, idle, [Reply invalid_actual_value]) /\
  process_actual_value "-2.5" idle =
    (Return tt, idle, [Reply invalid_actual_value]) /\
  process_actual_value "1e3" idle =
    (Return tt, idle, [Reply invalid_actual_value]).
Proof.
  split; [|split]; apply invalid_actual_value_rejected.
  - left. reflexivity.
  - right. left. eexists. reflexivity.
  - right. right. intros (ip & fp & Hdec & Hpos).
    destruct Hdec as (Hne & Hip & Hfp & Hs).
    vm_compute in Hs.
    destruct ip as [|d [|d2 ip]]; [congruence | |].
    + destruct fp; discriminate.
    + injection Hs as <- <- _. inversion Hip as [|? ? _ Hip']; subst.
      inversion Hip' as [|? ? Hd _]; subst. discriminate.
Defined.

(** C6.  On a ledger without a valid numeric entry,
    [predict_aviator_outcome] answers that there is no valid data, gives
    no prediction, and has no effect: no fit, and the state stays.  The
    ledger that [clear_data] leaves is empty, hence such a ledger. *)
Theorem predict_without_valid_data (crash_points : list string) (st : State)
  (Hnone : Forall (fun p => Re.match_decimal p = false) crash_points) :
  predict_aviator_outcome crash_points st =
    (Return (no_valid_data, None), st, []) /\
  let cleared := final (clear_data st) in
  historical_data cleared = [] /\
  predict_aviator_outcome (historical_data cleared) cleared =
    (Return (no_valid_data, None), cleared, []).
Proof.
  split; [|split].
  - apply (predict_run crash_points [] st).
    unfold numbers_of. now rewrite filter_none_valid.
  - reflexivity.
  - reflexivity.
Qed.

(** A ledger of five entries, none of them numeric. *)
Lemma predict_without_valid_data_witness :
  predict_aviator_outcome ["abc"; "-1"; "2."; ".5"; "1e3"] idle =
    (Return (no_valid_data, None), idle, []).
Proof.
  apply (predict_without_valid_data ["abc"; "-1"; "2."; ".5"; "1e3"] idle).
  repeat constructor.
Defined.

(** C7.  The filter under which the feedback handler is registered is
    case-sensitive: it lets "yes" and "no" through and stops "YES" and
    "No", although both [process_feedback] and
    [update_model_with_feedback] lower the token they get, so that
    [update_model_with_feedback] itself takes "YES" for "yes"; any token
    that is neither is logged as invalid and changes nothing. *)
Theorem feedback_filter_is_case_sensitive :
  (feedback_filter "yes" = true /\ feedback_filter "no" = true) /\
  (feedback_filter "YES" = false /\ feedback_filter "No" = false) /\
  (forall (st : State) (x : float) (pv : option prediction),
     update_model_with_feedback (Some "YES") x pv st =
     (Return tt, st, [LogInfo "Feedback: Prediction was correct."])) /\
  (forall (st : State) (fb : string) (x : float) (pv : option prediction),
     lower fb <> "yes" -> lower fb <> "no" ->
     update_model_with_feedback (Some fb) x pv st =
     (Return tt, st, [LogWarning "Invalid feedback received."])).
Proof.
  split; [split; reflexivity|]. split; [split; reflexivity|]. split.
  - intros st x pv. apply update_yes. reflexivity.
  - intros st fb x pv. apply update_other.
Qed.

(** C8, as the specification has it, fails: after the observations
    [2.0, 3.0], the feedback "no" and the actual value [4], the prediction
    is still pending. *)
Lemma pending_cleared_on_resolution_fails : ~ pending_cleared_on_resolution.
Proof.
  intros H. destruct (H corrected_once "4" "yes") as [Hnone _].
  - vm_compute. do 4 right. left. reflexivity.
  - vm_compute in Hnone. discriminate.
Qed.

(** C8, amended.  Each prediction overwrites the pending record: after
    [process_crash_points] replied, the record holds the prediction of
    that reply, or nothing when the reply is that there is no valid data.
    Resolving a feedback cycle does not clear it: [process_actual_value]
    leaves the record as it is, so a later feedback token is told that
    there is no recent prediction only when none was pending before. *)
Theorem pending_prediction_is_kept (text token : string) (st : State) :
  (forall m, In (Reply m) (effects (process_crash_points text st)) ->
     predicted_value (user_data (final (process_crash_points text st))) =
     match m with
     | PredictionText _ p => Some p
     | Text _ => None
     end) /\
  predicted_value (user_data (final (process_actual_value text st))) =
    predicted_value (user_data st) /\
  (effects (process_feedback token (final (process_actual_value text st))) =
     [Reply no_recent_prediction] <->
   predicted_value (user_data st) = None).
Proof.
  split; [|split].
  - rewrite crash_points_run. cbv zeta.
    set (st1 := set_historical_data _ st).
    destruct (numbers_of_valid _ (filter_valid (historical_data st1)))
      as (numbers & Hnum).
    rewrite (predict_run _ numbers st1 Hnum).
    destruct numbers as [|x [|x2 r]].
    + intros m [Hm | []]. now injection Hm as <-.
    + destruct (model st1); [intros m [] |].
      destruct (feature_ok (missing_values st1) x); [|intros m []].
      intros m [Hm | []]. now injection Hm as <-.
    + cbv zeta. destruct (frame_ok (missing_values st1) _ _);
        [destruct (feature_ok (missing_values st1) _)|].
      * intros m Hm. cbn in Hm.
        destruct Hm as [Hm | [Hm | [Hm | []]]]; try discriminate.
        now injection Hm as <-.
      * intros m Hm. cbn in Hm.
        destruct Hm as [Hm | [Hm | []]]; discriminate.
      * intros m Hm. cbn in Hm. destruct Hm as [Hm | []]; discriminate.
  - now rewrite actual_value_keeps_user_data.
  - unfold process_feedback, bind, gets, emit, modify.
    rewrite actual_value_keeps_user_data.
    destruct (predicted_value (user_data st)); cbn; split; intros H;
      try discriminate; reflexivity.
Qed.

(** C9, as the specification has it, fails: without the identifier of a
    stored model file [init_bot] gives [None]. *)
Lemma model_file_id_optional_fails : ~ model_file_id_optional.
Proof.
  intros H. destruct (H without_file_id offline) as (st & ev & Hinit);
    try reflexivity.
  vm_compute in Hinit. discriminate.
Qed.

(** C9, amended.  When the port is a number, [init_bot] fails, with one
    log record, as soon as one of the token, the channel identifier and
    the identifier of the stored model file is missing or empty.  With
    all three, it gives the updater, with an empty ledger, when the token
    has the form that [Updater] asks for, and raises [InvalidToken] when
    it has not. *)
Theorem init_bot_requires_all_three
  (env : Env) (lib : Library) (port : Z)
  (Hport : PyInt.of_string
             (match getenv env "PORT" with Some p => p | None => "8443" end)
           = Some port) :
  let missing :=
    falsy (getenv env "TELEGRAM_BOT_TOKEN")
    || falsy (getenv env "TELEGRAM_CHANNEL_ID")
    || falsy (getenv env "TELEGRAM_MODEL_FILE_ID") in
  if missing then
    init_bot env lib =
    (Return None, [LogError "Missing required environment variables."])
  else
    exists token,
      getenv env "TELEGRAM_BOT_TOKEN" = Some token /\
      if validate_token token then
        exists st ev,
          init_bot env lib = (Return (Some st), ev) /\
          historical_data st = [] /\
          predicted_value (user_data st) = None /\
          MODEL_FILE_ID st = getenv env "TELEGRAM_MODEL_FILE_ID"
      else init_bot env lib = (Raise InvalidToken, []).
Proof.
  cbv zeta. unfold init_bot. rewrite Hport.
  destruct (getenv env "TELEGRAM_BOT_TOKEN") as [token|]; [|reflexivity].
  destruct (falsy (Some token)
            || falsy (getenv env "TELEGRAM_CHANNEL_ID")
            || falsy (getenv env "TELEGRAM_MODEL_FILE_ID")); [reflexivity|].
  exists token. split; [reflexivity|].
  destruct (validate_token token); [|reflexivity].
  destruct (load_or_train_model _ (download lib)) as [m ev].
  eexists _, ev. repeat split.
Qed.

(** Start-up without the identifier of the stored model file, with it,
    and with it and the token [abc]. *)
Lemma init_bot_requires_all_three_witness :
  init_bot without_file_id offline =
    (Return None, [LogError "Missing required environment variables."]) /\
  (exists st ev, init_bot with_file_id offline = (Return (Some st), ev)) /\
  init_bot (("TELEGRAM_BOT_TOKEN", "abc") :: with_file_id) offline =
    (Raise InvalidToken, []).
Proof.
  split; [|split].
  - exact (init_bot_requires_all_three without_file_id offline 8443%Z
             eq_refl).
  - destruct (init_bot_requires_all_three with_file_id offline 8443%Z
                eq_refl) as (token & Htoken & Hinit).
    injection Htoken as <-.
    destruct Hinit as (st & ev & Hinit & _).
    exists st, ev. exact Hinit.
  - destruct (init_bot_requires_all_three
                (("TELEGRAM_BOT_TOKEN", "abc") :: with_file_id) offline
                8443%Z eq_refl) as (token & Htoken & Hinit).
    injection Htoken as <-. exact Hinit.
Defined.

(** C10.  The feedback path converts every entry of the ledger with
    [float], with no pattern in front: when the ledger has an entry that
    [float] refuses, the value is appended and the conversion raises
    [ValueError] before anything is fitted.  Such a ledger is reachable:
    the bulk append stores "abc" from the message [abc, 2, 3], and after
    the feedback "no" the actual value [5] raises. *)
Theorem unguarded_refit_raises :
  (forall (st : State) (fb e : string) (x : float)
          (pv : option prediction),
     lower fb = "no" ->
     In e (historical_data st) -> PyFloat.of_string e = None ->
     update_model_with_feedback (Some fb) x pv st =
     (Raise ValueError, appended x st, [updating])) /\
  exists (st : State) (e : string),
    reachable st /\
    In e (historical_data st) /\
    Re.match_decimal e = false /\ PyFloat.of_string e = None /\
    result (process_actual_value "5" st) = Raise ValueError /\
    count_fits (effects (process_actual_value "5" st)) = 0 /\
    model (final (process_actual_value "5" st)) = model st.
Proof.
  split.
  - intros st fb e x pv Hno Hin He.
    apply update_no_raises; [exact Hno|].
    exists e. split; [|exact He].
    cbn [appended historical_data set_historical_data].
    apply in_or_app. left. exact Hin.
  - exists tainted, "abc". split.
    + exists idle, [CrashPoints "abc, 2, 3"; Feedback "no"].
      split; [exact idle_started | reflexivity].
    + repeat split; try reflexivity. left. reflexivity.
Qed.

(** ** Further properties of the code *)

Module ServiceFacts.
Import PyStr Bot Session Examples Service.
Import StrFacts FloatFacts BotFacts FrameFacts HandlerFacts.

(** What [process_crash_points] does, by the numbers of the valid entries
    of the extended ledger and by what the regressor takes. *)
Lemma crash_points_outcome (text : string) (st : State) :
  let st1 :=
    set_historical_data (historical_data st ++ crash_points_of text) st in
  let pending p :=
    set_user_data {| predicted_value := p;
                     feedback := feedback (user_data st) |} in
  exists numbers,
    numbers_of (filter Re.match_decimal (historical_data st1)) numbers /\
    process_crash_points text st =
    match numbers with
    | [] => (Return tt, pending None st1, [Reply no_valid_data])
    | [x] =>
        match model st with
        | Unfitted => (Raise NotFittedError, st1, [])
        | Fitted X y =>
            if feature_ok (missing_values st) x
            then (Return tt, pending (Some (RF_predict X y x)) st1,
                  [Reply (PredictionText numbers (RF_predict X y x))])
            else (Raise ValueError, st1, [])
        end
    | _ =>
        let X := removelast numbers in
        let y := tl numbers in
        let x := last numbers PyFloat.zero in
        let p := RF_predict X y x in
        if frame_ok (missing_values st) X y then
          if feature_ok (missing_values st) x
          then (Return tt, pending (Some p) (set_model (Fitted X y) st1),
                [Fit X y; Dump; Reply (PredictionText numbers p)])
          else (Raise ValueError, set_model (Fitted X y) st1, [Fit X y; Dump])
        else (Raise ValueError, st1, [Fit X y])
    end.
Proof.
  cbv zeta. rewrite crash_points_run. cbv zeta.
  set (st1 := set_historical_data _ st).
  destruct (numbers_of_valid _ (filter_valid (historical_data st1)))
    as (numbers & Hnum).
  exists numbers. split; [exact Hnum|].
  rewrite (predict_run _ numbers st1 Hnum).
  change (missing_values st1) with (missing_values st).
  destruct numbers as [|x [|x2 r]]; [reflexivity | | ].
  - change (model st1) with (model st). destruct (model st); [reflexivity|].
    destruct (feature_ok (missing_values st) x); reflexivity.
  - cbv zeta. destruct (frame_ok (missing_values st) _ _); [|reflexivity].
    destruct (feature_ok (missing_values st) _); reflexivity.
Qed.

(** The paths of [process_crash_points], each with its result in the
    goal: no valid entry; one, with a forest never fitted, with a fitted
    forest that takes it, and with one that refuses it; two or more, with
    the frame and the last entry taken, with the last entry refused, and
    with the frame refused. *)
Ltac crash_points_paths text st :=
  let numbers := fresh "numbers" in
  let Hnum := fresh "Hnum" in
  let x := fresh "x" in
  let x2 := fresh "x2" in
  let r := fresh "r" in
  let X := fresh "X" in
  let y := fresh "y" in
  let Hm := fresh "Hm" in
  let Hx := fresh "Hx" in
  let Hframe := fresh "Hframe" in
  destruct (crash_points_outcome text st) as (numbers & Hnum & ->);
  destruct numbers as [|x [|x2 r]];
  [ | destruct (model st) as [|X y] eqn:Hm;
      [ | destruct (feature_ok (missing_values st) x) eqn:Hx ]
    | cbv zeta;
      destruct (frame_ok (missing_values st) (removelast (x :: x2 :: r))
                  (tl (x :: x2 :: r))) eqn:Hframe;
      [ destruct (feature_ok (missing_values st)
                    (last (x :: x2 :: r) PyFloat.zero)) eqn:Hx | ] ].

(** The paths of [process_actual_value], each with its result in the
    goal. *)
Ltac actual_value_paths text st :=
  let Hrej := fresh "Hrej" in
  let x := fresh "x" in
  let Hacc := fresh "Hacc" in
  let fb := fresh "fb" in
  let Hfb := fresh "Hfb" in
  let Hyes := fresh "Hyes" in
  let Hno := fresh "Hno" in
  let numbers := fresh "numbers" in
  let Hnum := fresh "Hnum" in
  let Hbad := fresh "Hbad" in
  let Hlen := fresh "Hlen" in
  let Hok := fresh "Hok" in
  destruct (actual_value_cases (strip text)) as [Hrej | (x & Hacc)];
  [ rewrite (actual_value_rejected text st Hrej)
  | rewrite (actual_value_accepted text x st Hacc);
    destruct (feedback (user_data st)) as [fb|] eqn:Hfb;
    [ destruct (String.eqb_spec (lower fb) "yes") as [Hyes | Hyes];
      [ rewrite (update_yes fb x _ st Hyes)
      | destruct (String.eqb_spec (lower fb) "no") as [Hno | Hno];
        [ destruct (numbers_of_dec (historical_data (appended x st)))
            as [(numbers & Hnum) | Hbad];
          [ rewrite (update_no_returns fb x _ st numbers Hno Hnum);
            destruct (1 <? List.length numbers) eqn:Hlen;
            [ cbv zeta;
              destruct (frame_ok (missing_values st) (removelast numbers)
                          (tl numbers)) eqn:Hok
            | ]
          | rewrite (update_no_raises fb x _ st Hno Hbad) ]
        | rewrite (update_other fb x _ st Hyes Hno) ] ]
    | cbn [update_model_with_feedback raise] ] ].

End ServiceFacts.

(** ** The numeric pattern and [float] *)

Import PyStr Bot Session Examples Service.
Import StrFacts FloatFacts BotFacts FrameFacts HandlerFacts ServiceFacts.

(** X1.  The numeric pattern accepts exactly the decimal numerals: one
    digit or more, then possibly a point and one digit or more; and, as
    [$] allows, one newline after the numeral.  No sign, exponent, space,
    or leading or trailing point gets through. *)
Theorem numeric_pattern_language (s : string) :
  Re.match_decimal s = true <->
  exists ip fp nl,
    ip <> [] /\ digits ip /\ digits fp /\
    (nl = [] \/ nl = ["010"%char]) /\
    chars s = (decimal_chars ip fp ++ nl)%list.
Proof.
  unfold Re.match_decimal. rewrite match_decimal_chars_spec.
  split; intros (ip & fp & nl & Hne & Hip & Hfp & Hnl & Hs);
    exists ip, fp, nl; repeat split; auto; now apply at_dollar_spec.
Qed.

(** *** Rounding keeps the sign *)

Module RoundFacts.

Local Open Scope Z_scope.

Lemma shr_1_nonneg (mrs : shr_record) :
  0 <= shr_m mrs -> 0 <= shr_m (shr_1 mrs).
Proof.
  destruct mrs as [m r s]. cbn [shr_m]. intros H.
  destruct m as [|[p|p|]|p]; cbn; lia.
Qed.

Lemma iter_pos_nonneg (p : positive) (mrs : shr_record) :
  0 <= shr_m mrs -> 0 <= shr_m (iter_pos shr_1 p mrs).
Proof.
  revert mrs. induction p as [p IH|p IH|]; intros mrs H; cbn [iter_pos].
  - apply IH, IH, shr_1_nonneg, H.
  - apply IH, IH, H.
  - apply shr_1_nonneg, H.
Qed.

Lemma shr_nonneg (mrs : shr_record) (e n : Z) :
  0 <= shr_m mrs -> 0 <= shr_m (fst (shr mrs e n)).
Proof.
  intros H. unfold shr. destruct n; cbn [fst]; try exact H.
  apply iter_pos_nonneg, H.
Qed.

Lemma shr_record_of_loc_m (m : Z) (l : location) :
  shr_m (shr_record_of_loc m l) = m.
Proof. destruct l as [|[| |]]; reflexivity. Qed.

Lemma shr_fexp_nonneg (prec emax m e : Z) (l : location) :
  0 <= m -> 0 <= shr_m (fst (shr_fexp prec emax m e l)).
Proof.
  intros H. unfold shr_fexp. apply shr_nonneg.
  now rewrite shr_record_of_loc_m.
Qed.

Lemma round_nearest_even_nonneg (m : Z) (l : location) :
  0 <= m -> 0 <= round_nearest_even m l.
Proof.
  intros H. unfold round_nearest_even.
  destruct l as [|[| |]]; try destruct (Z.even m); lia.
Qed.

(** Rounding a mantissa that is not negative gives a zero, a number or
    an infinity of the sign that was asked for. *)
Lemma binary_round_aux_sign (prec emax : Z) (mx ex : Z) (lx : location) :
  0 <= mx ->
  PyFloat.nonneg (binary_round_aux prec emax false mx ex lx) = true.
Proof.
  intros H. unfold binary_round_aux.
  pose proof (shr_fexp_nonneg prec emax mx ex lx H) as H1.
  destruct (shr_fexp prec emax mx ex lx) as [mrs' e'].
  cbn [fst] in H1.
  pose proof (shr_fexp_nonneg prec emax _ e' loc_Exact
                (round_nearest_even_nonneg _ (loc_of_shr_record mrs') H1))
    as H2.
  destruct (shr_fexp prec emax _ e' loc_Exact) as [mrs'' e''].
  cbn [fst] in H2.
  destruct (shr_m mrs'') as [|m|m]; [reflexivity | | lia].
  destruct (e'' <=? emax - prec); reflexivity.
Qed.

Lemma of_decimal_nonneg (m e : Z) :
  PyFloat.nonneg (PyFloat.of_decimal false m e) = true.
Proof.
  unfold PyFloat.of_decimal. destruct m as [|p|p]; try reflexivity.
  destruct (0 <=? e) eqn:He.
  - cbn [cond_Zopp]. unfold binary_normalize.
    destruct (Z.pos p * 10 ^ e) as [|q|q] eqn:Hq; [reflexivity | | lia].
    unfold binary_round.
    destruct (shl_align _ _ _) as [mz ez].
    apply binary_round_aux_sign. lia.
  - unfold SFdiv_core_binary.
    set (m' := match _ with Z0 => _ | Zpos _ => _ | Zneg _ => _ end).
    assert (Hm' : 0 <= m').
    { subst m'. destruct (_ - _ - _); try lia.
      apply Z.shiftl_nonneg. lia. }
    apply Z.leb_gt in He.
    pose proof (Z.div_pos m' (10 ^ (- e)) Hm') as Hdiv.
    unfold Z.div in Hdiv.
    destruct (Z.div_eucl m' (10 ^ (- e))) as [q r]. cbn [fst] in Hdiv.
    apply binary_round_aux_sign.
    apply Hdiv. apply Z.pow_pos_nonneg; lia.
Qed.

End RoundFacts.

Import RoundFacts.

(** X2.  [float] accepts every string that the numeric pattern accepts:
    the conversions behind the pattern, in [predict_aviator_outcome] and
    in [process_actual_value], never raise.  What it converts is the
    numeral of the string, without the newline that may follow: the
    number written by the digits before and after the point, scaled by
    ten to the minus number of digits after the point.  The result is a
    number that is not negative, or plus infinity, and never a NaN. *)
Theorem float_accepts_numerals (s : string)
  (Hmatch : Re.match_decimal s = true) :
  exists ip fp nl,
    (ip <> [] /\ digits ip /\ digits fp /\
     (nl = [] \/ nl = ["010"%char]) /\
     chars s = (decimal_chars ip fp ++ nl)%list) /\
    let x := PyFloat.of_decimal false (PyFloat.digits_value (ip ++ fp))
               (0 - Z.of_nat (List.length fp)) in
    PyFloat.of_string s = Some x /\
    PyFloat.nonneg x = true /\
    forall st, to_float s st = (Return x, st, []).
Proof.
  unfold Re.match_decimal in Hmatch.
  apply match_decimal_chars_spec in Hmatch.
  destruct Hmatch as (ip & fp & nl & Hne & Hip & Hfp & Hnl & Hs).
  exists ip, fp, nl. split.
  { repeat split; try assumption. now apply at_dollar_spec. }
  pose proof (of_string_decimal s ip fp nl Hne Hip Hfp Hnl Hs) as H.
  cbv zeta. split; [exact H|]. split; [apply of_decimal_nonneg|].
  intros st. unfold to_float. now rewrite H.
Qed.

(** The numeral [0.25] is accepted. *)
Lemma float_accepts_numerals_witness :
  exists x, forall st, to_float "0.25" st = (Return x, st, []).
Proof.
  destruct (float_accepts_numerals "0.25" eq_refl)
    as (ip & fp & nl & _ & _ & _ & H).
  eexists. exact H.
Defined.

(** ** Predictions *)

(** X3.  The exceptions of [predict_aviator_outcome].  It raises
    [NotFittedError] exactly when the ledger has one valid entry and the
    forest was never fitted, and nothing was changed or sent before.  Any
    other exception is a [ValueError] of the regressor, which refused the
    frame of a ledger with two valid entries or more, or the last valid
    entry; [float] never raises behind the pattern. *)
Theorem predict_exceptions (crash_points : list string) (st : State) :
  let r := predict_aviator_outcome crash_points st in
  (result r = Raise NotFittedError <->
   model st = Unfitted /\
   List.length (filter Re.match_decimal crash_points) = 1) /\
  (result r = Raise NotFittedError -> final r = st /\ effects r = []) /\
  (forall e, result r = Raise e ->
     e <> NotFittedError ->
     e = ValueError /\
     exists numbers,
       numbers_of (filter Re.match_decimal crash_points) numbers /\
       ((2 <= List.length numbers /\
         frame_ok (missing_values st) (removelast numbers) (tl numbers)
         = false /\
         final r = st /\ effects r = [Fit (removelast numbers) (tl numbers)])
        \/
        feature_ok (missing_values st) (last numbers PyFloat.zero) = false)).
Proof.
  cbv zeta.
  destruct (numbers_of_valid _ (filter_valid crash_points))
    as (numbers & Hnum).
  rewrite (predict_run _ numbers st Hnum).
  rewrite <- (numbers_of_length _ _ Hnum).
  destruct numbers as [|x [|x2 r]].
  - split; [split|split]; cbn.
    + discriminate.
    + intros (_ & H). discriminate.
    + discriminate.
    + intros e He. discriminate.
  - destruct (model st) as [|X y].
    + split; [split|split]; cbn; auto.
      intros e He Hne. injection He as <-. contradiction.
    + destruct (feature_ok (missing_values st) x) eqn:Hx;
        (split; [split|split]); cbn; try discriminate.
      * intros (H & _). discriminate.
      * intros (H & _). discriminate.
      * intros e He _. injection He as <-. split; [reflexivity|].
        exists [x]. split; [exact Hnum|]. right. exact Hx.
  - cbv zeta.
    destruct (frame_ok (missing_values st) _ _) eqn:Hframe;
      [destruct (feature_ok (missing_values st) _) eqn:Hx|];
      (split; [split|split]); cbn; try discriminate;
      try (intros (_ & H); discriminate).
    + intros e He _. injection He as <-. split; [reflexivity|].
      exists (x :: x2 :: r). split; [exact Hnum|]. right. exact Hx.
    + intros e He _. injection He as <-. split; [reflexivity|].
      exists (x :: x2 :: r). split; [exact Hnum|]. left.
      split; [cbn; lia|]. split; [exact Hframe|]. split; reflexivity.
Qed.

(** X4.  With a fitted forest and exactly one valid entry in the ledger,
    [predict_aviator_outcome] fits and saves nothing and leaves the state
    as it is: it predicts from the fit it finds when the regressor takes
    the entry, and raises [ValueError] when it does not. *)
Theorem single_observation_uses_old_fit
  (crash_points : list string) (st : State) (X y : list float)
  (p : string)
  (Hfitted : model st = Fitted X y)
  (Hone : filter Re.match_decimal crash_points = [p]) :
  exists x,
    PyFloat.of_string p = Some x /\
    predict_aviator_outcome crash_points st =
    if feature_ok (missing_values st) x
    then (Return (PredictionText [x] (RF_predict X y x),
                  Some (RF_predict X y x)), st, [])
    else (Raise ValueError, st, []).
Proof.
  destruct (numbers_of_valid _ (filter_valid crash_points))
    as (numbers & Hnum).
  rewrite (predict_run _ numbers st Hnum). rewrite Hone in Hnum.
  destruct numbers as [|x [|x2 r]]; try discriminate.
  exists x. unfold numbers_of in Hnum. cbn in Hnum.
  injection Hnum as Hp. split; [exact Hp|]. now rewrite Hfitted.
Qed.

(** A forest fitted on [(2.0, 3.0)]: the ledger [abc, 4.0] gives a
    prediction from [4.0], and the ledger of ten to the thirty-ninth
    raises. *)
Lemma single_observation_uses_old_fit_witness :
  predict_aviator_outcome ["abc"; "4.0"] (set_model (Fitted [two] [three]) idle)
  = (Return (PredictionText [four] (RF_predict [two] [three] four),
             Some (RF_predict [two] [three] four)),
     set_model (Fitted [two] [three]) idle, []) /\
  predict_aviator_outcome [beyond_float32]
    (set_model (Fitted [two] [three]) idle)
  = (Raise ValueError, set_model (Fitted [two] [three]) idle, []).
Proof.
  split.
  - destruct (single_observation_uses_old_fit ["abc"; "4.0"]
                (set_model (Fitted [two] [three]) idle) [two] [three] "4.0"
                eq_refl eq_refl) as (x & Hx & Hrun).
    vm_compute in Hx. injection Hx as <-. exact Hrun.
  - destruct (single_observation_uses_old_fit [beyond_float32]
                (set_model (Fitted [two] [three]) idle) [two] [three]
                beyond_float32 eq_refl eq_refl) as (x & Hx & Hrun).
    vm_compute in Hx. injection Hx as <-. exact Hrun.
Defined.

(** ** The entries of the bulk append *)

Module SplitFacts.
Import PyStr Bot Session Service StrFacts.

Lemma lstrip_chars_idempotent (cs : list ascii) :
  lstrip_chars (lstrip_chars cs) = lstrip_chars cs.
Proof.
  induction cs as [|c r IH]; simpl; [reflexivity|].
  destruct (is_space c) eqn:Hc; [exact IH|]. simpl. now rewrite Hc.
Qed.

(** [lstrip] cuts a prefix. *)
Lemma lstrip_chars_suffix (cs : list ascii) :
  exists pre, cs = (pre ++ lstrip_chars cs)%list.
Proof.
  induction cs as [|c r (pre & IH)]; simpl; [now exists []|].
  destruct (is_space c); [|now exists []].
  exists (c :: pre). simpl. now rewrite <- IH.
Qed.

(** [rstrip] cuts a suffix. *)
Lemma rstrip_chars_prefix (cs : list ascii) :
  exists post, cs = (rstrip_chars cs ++ post)%list.
Proof.
  unfold rstrip_chars. destruct (lstrip_chars_suffix (rev cs)) as (pre & H).
  exists (rev pre). apply (f_equal (@rev ascii)) in H.
  now rewrite rev_involutive, rev_app_distr in H.
Qed.

Lemma strip_chars_incl (cs : list ascii) (c : ascii) :
  In c (strip_chars cs) -> In c cs.
Proof.
  unfold strip_chars. intros H.
  destruct (rstrip_chars_prefix (lstrip_chars cs)) as (post & Hpost).
  destruct (lstrip_chars_suffix cs) as (pre & Hpre).
  rewrite Hpre. apply in_or_app. right.
  rewrite Hpost. apply in_or_app. now left.
Qed.

Lemma strip_chars_idempotent (cs : list ascii) :
  strip_chars (strip_chars cs) = strip_chars cs.
Proof.
  unfold strip_chars.
  assert (Hl : lstrip_chars (rstrip_chars (lstrip_chars cs)) =
               rstrip_chars (lstrip_chars cs)).
  { destruct (rstrip_chars_prefix (lstrip_chars cs)) as (post & Hpost).
    destruct (rstrip_chars (lstrip_chars cs)) as [|c u] eqn:Hu;
      [reflexivity|].
    simpl in Hpost. apply lstrip_chars_head in Hpost.
    simpl. now rewrite Hpost. }
  rewrite Hl. unfold rstrip_chars.
  now rewrite rev_involutive, lstrip_chars_idempotent.
Qed.

Lemma strip_idempotent (s : string) : strip (strip s) = strip s.
Proof.
  unfold strip. now rewrite chars_str, strip_chars_idempotent.
Qed.

(** No piece of a split holds the separator. *)
Lemma split_chars_no_sep (sep : ascii) (cs w : list ascii) :
  In w (split_chars sep cs) -> ~ In sep w.
Proof.
  revert w. induction cs as [|c r IH]; simpl; intros w Hw.
  - destruct Hw as [<- | []]. intros [].
  - destruct (Ascii.eqb_spec c sep) as [-> | Hc].
    + destruct Hw as [<- | Hw]; [intros [] | now apply IH].
    + destruct (split_chars sep r) as [|w0 ws].
      * destruct Hw as [<- | []]. intros [H | []]. congruence.
      * destruct Hw as [<- | Hw].
        -- intros [H | H]; [congruence|]. apply (IH w0); simpl; auto.
        -- apply IH. simpl. auto.
Qed.

Lemma lstrip_chars_blanks (pre l : list ascii) :
  blanks pre -> lstrip_chars (pre ++ l) = lstrip_chars l.
Proof.
  induction 1 as [|c pre Hc _ IH]; simpl; [reflexivity|]. now rewrite Hc.
Qed.

Lemma rstrip_chars_blanks (l post : list ascii) :
  blanks post -> rstrip_chars (l ++ post) = rstrip_chars l.
Proof.
  intros H. unfold rstrip_chars. rewrite rev_app_distr.
  rewrite lstrip_chars_blanks; [reflexivity|].
  unfold blanks. now apply Forall_rev.
Qed.

Lemma lstrip_chars_app (l post : list ascii) :
  blanks post ->
  lstrip_chars (l ++ post) = (lstrip_chars l ++ post)%list \/
  (lstrip_chars l = [] /\ lstrip_chars (l ++ post) = []).
Proof.
  intros H. induction l as [|c r IH]; simpl.
  - right. split; [reflexivity|].
    rewrite <- (app_nil_r post). now apply lstrip_chars_blanks.
  - destruct (is_space c); [exact IH | left; reflexivity].
Qed.

(** White space around a string does not count for [strip]. *)
Lemma strip_chars_blanks (pre l post : list ascii) :
  blanks pre -> blanks post ->
  strip_chars (pre ++ l ++ post) = strip_chars l.
Proof.
  intros Hpre Hpost. unfold strip_chars.
  rewrite lstrip_chars_blanks by exact Hpre.
  destruct (lstrip_chars_app l post Hpost) as [-> | [-> ->]];
    [|reflexivity].
  now apply rstrip_chars_blanks.
Qed.

Lemma strip_chars_no_blank (cs : list ascii) :
  no_blank cs -> strip_chars cs = cs.
Proof.
  intros H. unfold strip_chars, rstrip_chars.
  assert (Hl : forall l, no_blank l -> lstrip_chars l = l).
  { intros l Hl. destruct Hl as [|c r Hc _]; simpl; [|rewrite Hc]; auto. }
  rewrite (Hl cs H), (Hl (rev cs)); [apply rev_involutive|].
  unfold no_blank. now apply Forall_rev.
Qed.

(** [lstrip] cuts white space, and [rstrip] too. *)
Lemma lstrip_chars_cut (cs : list ascii) :
  exists pre, blanks pre /\ cs = (pre ++ lstrip_chars cs)%list.
Proof.
  induction cs as [|c r (pre & Hpre & IH)]; simpl.
  - exists []. split; [constructor | reflexivity].
  - destruct (is_space c) eqn:Hc.
    + exists (c :: pre). split; [now constructor|]. simpl. now rewrite <- IH.
    + exists []. split; [constructor | reflexivity].
Qed.

Lemma strip_chars_cut (cs : list ascii) :
  exists pre post,
    blanks pre /\ blanks post /\ cs = (pre ++ strip_chars cs ++ post)%list.
Proof.
  destruct (lstrip_chars_cut cs) as (pre & Hpre & Hcs).
  destruct (lstrip_chars_cut (rev (lstrip_chars cs))) as (q & Hq & Hrev).
  exists pre, (rev q). split; [exact Hpre|]. split.
  - unfold blanks. now apply Forall_rev.
  - unfold strip_chars, rstrip_chars. rewrite Hcs at 1. f_equal.
    apply (f_equal (@rev ascii)) in Hrev.
    now rewrite rev_involutive, rev_app_distr in Hrev.
Qed.

End SplitFacts.

Import SplitFacts.

(** X5.  Every entry that the bulk append takes from a message is a
    non-empty string without a comma and without white space at either
    end. *)
Theorem crash_points_are_clean (text p : string)
  (Hin : In p (crash_points_of text)) :
  p <> "" /\ strip p = p /\ ~ In ","%char (chars p).
Proof.
  unfold crash_points_of in Hin. apply filter_In in Hin.
  destruct Hin as [Hin Hp]. apply in_map_iff in Hin.
  destruct Hin as (piece & <- & Hpiece).
  unfold split in Hpiece. apply in_map_iff in Hpiece.
  destruct Hpiece as (w & <- & Hw).
  split; [|split].
  - intros H. rewrite H in Hp. discriminate.
  - apply strip_idempotent.
  - rewrite chars_strip, chars_str. intros H.
    apply strip_chars_incl in H.
    exact (split_chars_no_sep _ _ _ Hw H).
Qed.

(** The three entries of the message [ 2.0 ,, abc,3.0 ]. *)
Lemma crash_points_are_clean_witness :
  crash_points_of " 2.0 ,, abc,3.0 " = ["2.0"; "abc"; "3.0"] /\
  "abc" <> "" /\ strip "abc" = "abc" /\ ~ In ","%char (chars "abc").
Proof.
  split; [reflexivity|].
  apply (crash_points_are_clean " 2.0 ,, abc,3.0 " "abc").
  right. left. reflexivity.
Defined.

(** ** What every handler keeps *)

Module InvariantFacts.
Import PyStr Bot Session Examples Service.
Import StrFacts FloatFacts BotFacts FrameFacts HandlerFacts ServiceFacts.

Lemma dispatch_final (r : request) (st : State) :
  fst (dispatch r st) = final (serve r st).
Proof.
  unfold dispatch. destruct (serve r st) as [[[u|e] st1] ev]; reflexivity.
Qed.

Lemma serve_all_cons (r : request) (rs : list request) (st : State) :
  serve_all (r :: rs) st = serve_all rs (final (serve r st)).
Proof. unfold serve_all. simpl. now rewrite dispatch_final. Qed.

(** An invariant of every handler is an invariant of the conversation. *)
Lemma serve_all_invariant (I : State -> Prop) :
  (forall r st, I st -> I (final (serve r st))) ->
  forall rs st, I st -> I (serve_all rs st).
Proof.
  intros Hstep rs. induction rs as [|r rs IH]; intros st Hst;
    [exact Hst|].
  rewrite serve_all_cons. apply IH, Hstep, Hst.
Qed.

(** The ledger after a request: emptied by the clear command, extended
    otherwise. *)
Lemma serve_ledger (r : request) (st : State) :
  match r with
  | Call Clear => historical_data (final (serve r st)) = []
  | Call (CrashPoints text) =>
      historical_data (final (serve r st)) =
      (historical_data st ++ crash_points_of text)%list
  | Call (ActualValue text) =>
      historical_data (final (serve r st)) = historical_data st \/
      exists x, accepted_actual_value (strip text) x /\
        historical_data (final (serve r st)) =
        (historical_data st ++ [PyFloat.to_string x])%list
  | _ => historical_data (final (serve r st)) = historical_data st
  end.
Proof.
  destruct r as [| | [text | text | text |]]; cbn [serve handle];
    try reflexivity.
  - crash_points_paths text st; reflexivity.
  - unfold process_feedback, bind, gets, emit, modify.
    destruct (predicted_value (user_data st)); reflexivity.
  - actual_value_paths text st; cbv zeta; cbn [final fst snd];
      rewrite ?uploaded_historical_data; auto;
      right; exists x; auto.
Qed.

Lemma serve_feedback_data (r : request) (st : State) :
  feedback_data st = [] -> feedback_data (final (serve r st)) = [].
Proof.
  intros H. destruct r as [| | [text | text | text |]]; cbn [serve handle];
    try exact H; try reflexivity.
  - crash_points_paths text st; exact H.
  - unfold process_feedback, bind, gets, emit, modify.
    destruct (predicted_value (user_data st)); exact H.
  - actual_value_paths text st; cbv zeta; cbn [final fst snd];
      try exact H.
    unfold uploaded. cbv zeta. destruct (channel _ 0) as [fid|e]; exact H.
Qed.

Lemma serve_fitted (r : request) (st : State) :
  fitted st -> fitted (final (serve r st)).
Proof.
  intros (X & y & H). unfold fitted.
  destruct r as [| | [text | text | text |]]; cbn [serve handle];
    try (exists X, y; exact H).
  - crash_points_paths text st;
      cbn [final fst snd model set_user_data set_model
           set_historical_data]; eauto.
    congruence.
  - unfold process_feedback, bind, gets, emit, modify.
    destruct (predicted_value (user_data st)); cbn; eauto.
  - actual_value_paths text st; cbv zeta; cbn [final fst snd];
      rewrite ?uploaded_model;
      cbn [model set_model appended set_historical_data]; eauto.
Qed.

(** Only a never fitted forest makes a handler raise [NotFittedError]. *)
Lemma serve_not_fitted_error (r : request) (st : State) :
  result (serve r st) = Raise NotFittedError -> model st = Unfitted.
Proof.
  destruct r as [| | [text | text | text |]]; cbn [serve handle];
    try discriminate.
  - crash_points_paths text st; cbn; congruence.
  - unfold process_feedback, bind, gets, emit, modify.
    destruct (predicted_value (user_data st)); discriminate.
  - actual_value_paths text st; cbv zeta; cbn; discriminate.
Qed.

Lemma serve_pending_fitted (r : request) (st : State) :
  pending_fitted st -> pending_fitted (final (serve r st)).
Proof.
  intros [Hnone | Hfit]; [|right; now apply serve_fitted].
  unfold pending_fitted, fitted.
  destruct r as [| | [text | text | text |]]; cbn [serve handle];
    try (left; exact Hnone).
  - crash_points_paths text st; cbn [final fst snd].
    + left. reflexivity.
    + left. exact Hnone.
    + right. exists X, y. exact Hm.
    + left. exact Hnone.
    + right. eexists _, _. reflexivity.
    + right. eexists _, _. reflexivity.
    + left. exact Hnone.
  - unfold process_feedback, bind, gets, emit, modify. rewrite Hnone.
    left. exact Hnone.
  - left. rewrite actual_value_keeps_user_data. exact Hnone.
Qed.

Lemma started_fresh (st : State) :
  started st ->
  historical_data st = [] /\ feedback_data st = [] /\
  user_data st = {| predicted_value := None; feedback := None |}.
Proof.
  intros (env & lib & ev & H). unfold init_bot in H.
  destruct (PyInt.of_string _); [|discriminate].
  destruct (_ || _); [discriminate|].
  destruct (validate_token _); [|discriminate].
  destruct (load_or_train_model _ _) as [m ev'].
  injection H as <- _. auto.
Qed.

End InvariantFacts.

Import InvariantFacts.

(** X6.  The ledger is append-only between two clear commands: whatever
    requests are served, as long as none of them is the clear command,
    the ledger at the start is a prefix of the ledger at the end.  No
    handler removes, changes or reorders an entry. *)
Theorem ledger_is_append_only (rs : list request) (st : State)
  (Hnoclear : ~ In (Call Clear) rs) :
  exists suffix,
    historical_data (serve_all rs st) = (historical_data st ++ suffix)%list.
Proof.
  revert st. induction rs as [|r rs IH]; intros st.
  - exists []. now rewrite app_nil_r.
  - rewrite serve_all_cons.
    destruct (IH (fun H => Hnoclear (or_intror H)) (final (serve r st)))
      as (suffix & ->).
    assert (Hstep : exists s1, historical_data (final (serve r st)) =
                               (historical_data st ++ s1)%list).
    { pose proof (serve_ledger r st) as H.
      destruct r as [| | [text | text | text |]].
      - exists []. now rewrite app_nil_r.
      - exists []. now rewrite app_nil_r.
      - eexists. exact H.
      - exists []. now rewrite app_nil_r.
      - destruct H as [H | (x & _ & H)];
          [exists []; now rewrite app_nil_r | eexists; exact H].
      - contradiction Hnoclear. left. reflexivity. }
    destruct Hstep as (s1 & ->). exists (s1 ++ suffix)%list.
    now rewrite app_assoc.
Qed.

(** Four requests on the ledger [2.0, 3.0]. *)
Lemma ledger_is_append_only_witness :
  exists suffix,
    historical_data
      (serve_all [Call (CrashPoints "x, 4.0"); Help; Call (Feedback "no");
                  Call (ActualValue "5")]
         corrected_once) = (["2.0"; "3.0"] ++ suffix)%list.
Proof.
  apply (ledger_is_append_only _ corrected_once).
  intros [H | [H | [H | [H | []]]]]; discriminate.
Defined.

(** X7.  The list [feedback_data] is never written: it is empty at the
    start and after every request. *)
Theorem feedback_data_stays_empty (rs : list request) (st : State)
  (Hstarted : started st) :
  feedback_data (serve_all rs st) = [].
Proof.
  apply (serve_all_invariant (fun s => feedback_data s = [])).
  - intros r s. apply serve_feedback_data.
  - now apply started_fresh.
Qed.

Lemma feedback_data_stays_empty_witness :
  feedback_data
    (serve_all [Call (CrashPoints "2.0, 3.0"); Call (Feedback "no");
                Call (ActualValue "4"); Start] idle) = [].
Proof. apply (feedback_data_stays_empty _ idle idle_started). Defined.

(** X8.  Once fitted, the forest stays fitted, whatever is served; so
    after the first fit no handler raises [NotFittedError] any more. *)
Theorem model_stays_fitted (rs : list request) (st : State)
  (Hfitted : fitted st) :
  fitted (serve_all rs st) /\
  forall r, result (serve r (serve_all rs st)) <> Raise NotFittedError.
Proof.
  assert (H : fitted (serve_all rs st)).
  { apply (serve_all_invariant fitted); [apply serve_fitted | exact Hfitted]. }
  split; [exact H|]. intros r Hr.
  apply serve_not_fitted_error in Hr. destruct H as (X & y & H).
  congruence.
Qed.

Lemma model_stays_fitted_witness :
  fitted (serve_all [Call Clear; Call (CrashPoints "7")] corrected_once).
Proof.
  apply (model_stays_fitted _ corrected_once).
  eexists _, _. reflexivity.
Defined.

(** X9.  In every state a conversation reaches from the start, a pending
    prediction comes with a fitted forest. *)
Theorem pending_prediction_implies_fitted
  (rs : list request) (st : State) (p : prediction)
  (Hstarted : started st)
  (Hpending : predicted_value (user_data (serve_all rs st)) = Some p) :
  fitted (serve_all rs st).
Proof.
  assert (H : pending_fitted (serve_all rs st)).
  { apply (serve_all_invariant pending_fitted);
      [apply serve_pending_fitted|].
    left. destruct (started_fresh st Hstarted) as (_ & _ & ->).
    reflexivity. }
  destruct H as [H | H]; [congruence | exact H].
Qed.

Lemma pending_prediction_implies_fitted_witness :
  fitted (serve_all [Call (CrashPoints "2.0, 3.0"); Call Clear] idle).
Proof.
  eapply (pending_prediction_implies_fitted _ idle _ idle_started).
  reflexivity.
Defined.

(** ** The feedback cycle *)

Module CycleFacts.
Import PyStr Bot Session StrFacts.

Lemma lower_char_idempotent (c : ascii) :
  lower_char (lower_char c) = lower_char c.
Proof. by_cases_on c. Qed.

Lemma lower_idempotent (s : string) : lower (lower s) = lower s.
Proof.
  unfold lower. rewrite chars_str, map_map. f_equal.
  apply map_ext. apply lower_char_idempotent.
Qed.

End CycleFacts.

Import CycleFacts.

(** X10.  [process_actual_value] on an accepted value, when no feedback
    was stored for the user, raises [AttributeError] on [None.lower()]
    and changes nothing; the user gets the notice of the error handler. *)
Theorem actual_value_without_feedback_raises
  (text : string) (st : State) (x : float)
  (Hnone : feedback (user_data st) = None)
  (Hacc : accepted_actual_value (strip text) x) :
  process_actual_value text st = (Raise AttributeError, st, []) /\
  dispatch (Call (ActualValue text)) st =
  (st, error_handler (Call (ActualValue text)) AttributeError).
Proof.
  assert (H : process_actual_value text st = (Raise AttributeError, st, [])).
  { rewrite (actual_value_accepted _ x st Hacc), Hnone. reflexivity. }
  split; [exact H|]. unfold dispatch. cbn [serve handle]. now rewrite H.
Qed.

(** The text [3] as the first message. *)
Lemma actual_value_without_feedback_raises_witness :
  process_actual_value "3" idle = (Raise AttributeError, idle, []).
Proof.
  apply (actual_value_without_feedback_raises "3" idle three eq_refl).
  split; [|split]; reflexivity.
Defined.

(** X11.  The thanks do not mean an update.  With a stored feedback that
    is not "no" in any case, an accepted actual value changes nothing and
    fits nothing, and the user is still told that the model has been
    updated. *)
Theorem thanks_without_update
  (text : string) (st : State) (fb : string) (x : float)
  (Hfb : feedback (user_data st) = Some fb)
  (Hnot : lower fb <> "no")
  (Hacc : accepted_actual_value (strip text) x) :
  let r := process_actual_value text st in
  result r = Return tt /\ final r = st /\
  In (Reply thank_you) (effects r) /\ count_fits (effects r) = 0.
Proof.
  cbv zeta. rewrite (actual_value_accepted _ x st Hacc), Hfb.
  destruct (String.eqb_spec (lower fb) "yes") as [Hyes | Hnyes].
  - rewrite (update_yes _ _ _ _ Hyes).
    split; [reflexivity|]. split; [reflexivity|].
    split; [right; left; reflexivity | reflexivity].
  - rewrite (update_other _ _ _ _ Hnyes Hnot).
    split; [reflexivity|]. split; [reflexivity|].
    split; [right; left; reflexivity | reflexivity].
Qed.

(** The actual value [4] after the feedback "yes". *)
Lemma thanks_without_update_witness :
  let st := run [CrashPoints "2.0, 3.0"; Feedback "yes"] idle in
  final (process_actual_value "4" st) = st /\
  In (Reply thank_you) (effects (process_actual_value "4" st)).
Proof.
  cbv zeta.
  destruct (thanks_without_update "4"
              (run [CrashPoints "2.0, 3.0"; Feedback "yes"] idle)
              "yes" four eq_refl) as (_ & Hst & Hin & _).
  - discriminate.
  - split; [|split]; reflexivity.
  - split; [exact Hst | exact Hin].
Defined.

(** X12.  A feedback cycle, from the token to the actual value.  With a
    prediction pending, [process_feedback] stores the stripped token in
    lower case, whatever it is, and touches neither ledger nor model.  An
    accepted actual value [x] is then appended as [str(x)] when the
    stored token is "no"; for any other token the cycle ends with the
    ledger and the model it started with. *)
Theorem feedback_cycle
  (text v : string) (st : State) (p : prediction) (x : float)
  (Hpending : predicted_value (user_data st) = Some p)
  (Hacc : accepted_actual_value (strip v) x) :
  let st1 := final (process_feedback text st) in
  let r := process_actual_value v st1 in
  feedback (user_data st1) = Some (lower (strip text)) /\
  historical_data st1 = historical_data st /\ model st1 = model st /\
  (lower (strip text) = "no" ->
   historical_data (final r) =
   (historical_data st ++ [PyFloat.to_string x])%list) /\
  (lower (strip text) <> "no" ->
   result r = Return tt /\
   historical_data (final r) = historical_data st /\
   model (final r) = model st).
Proof.
  cbv zeta.
  assert (Hst1 : final (process_feedback text st) =
                 set_user_data {| predicted_value := Some p;
                                  feedback := Some (lower (strip text)) |}
                   st).
  { unfold process_feedback, bind, gets, emit, modify. rewrite Hpending.
    cbn. now rewrite Hpending. }
  rewrite Hst1. set (st1 := set_user_data _ st).
  split; [reflexivity|]. split; [reflexivity|]. split; [reflexivity|].
  rewrite (actual_value_accepted _ x st1 Hacc).
  cbn [st1 user_data set_user_data feedback predicted_value].
  fold st1. split.
  - intros Hno.
    assert (Hno' : lower (lower (strip text)) = "no")
      by now rewrite lower_idempotent.
    destruct (numbers_of_dec (historical_data (appended x st1)))
      as [(numbers & Hnum) | Hbad].
    + rewrite (update_no_returns _ _ _ _ numbers Hno' Hnum).
      destruct (1 <? List.length numbers); cbv zeta;
        [destruct (frame_ok (missing_values st1) _ _)|];
        cbn [final fst snd];
        rewrite ?uploaded_historical_data; reflexivity.
    + rewrite (update_no_raises _ _ _ _ Hno' Hbad). reflexivity.
  - intros Hnot.
    assert (Hnot' : lower (lower (strip text)) <> "no")
      by now rewrite lower_idempotent.
    destruct (String.eqb_spec (lower (lower (strip text))) "yes")
      as [Hyes | Hnyes].
    + rewrite (update_yes _ _ _ _ Hyes). auto.
    + rewrite (update_other _ _ _ _ Hnyes Hnot'). auto.
Qed.

(** The token [ No ] and the actual value [4] after [2.0, 3.0]. *)
Lemma feedback_cycle_witness :
  let st := run [CrashPoints "2.0, 3.0"] idle in
  historical_data
    (final (process_actual_value "4" (final (process_feedback " No " st))))
  = ["2.0"; "3.0"; "4.0"].
Proof.
  cbv zeta.
  destruct (feedback_cycle " No " "4" (run [CrashPoints "2.0, 3.0"] idle)
              (RF_predict [two] [three] three) four eq_refl)
    as (_ & _ & _ & Hno & _).
  - split; [|split]; reflexivity.
  - exact (Hno eq_refl).
Defined.

(** X13.  [update_model_with_feedback] calls [model.fit] at most once.
    Without a call, the forest, the file identifier and the channel are as
    before.  With a call, the value was appended and the frame is that of
    the whole ledger; when the regressor takes it, the forest is the new
    fit and one upload is tried, which stores the new identifier, or is
    logged with its exception and keeps the old one; when the regressor
    refuses it, [ValueError] is raised, nothing is uploaded, and the
    forest and the file identifier are as before. *)
Theorem upload_follows_refit
  (fb : string) (x : float) (pv : option prediction) (st : State) :
  let r := update_model_with_feedback (Some fb) x pv st in
  count_fits (effects r) <= 1 /\
  (count_fits (effects r) = 0 ->
   model (final r) = model st /\
   MODEL_FILE_ID (final r) = MODEL_FILE_ID st /\
   channel (final r) = channel st) /\
  (count_fits (effects r) = 1 ->
   historical_data (final r) =
     (historical_data st ++ [PyFloat.to_string x])%list /\
   exists numbers,
     numbers_of (historical_data (final r)) numbers /\
     let X := removelast numbers in
     let y := tl numbers in
     In (Fit X y) (effects r) /\
     if frame_ok (missing_values st) X y then
       result r = Return tt /\
       model (final r) = Fitted X y /\
       (forall n, channel (final r) n = channel st (S n)) /\
       match channel st 0 with
       | Done file_id =>
           MODEL_FILE_ID (final r) = Some file_id /\
           In (LogInfo "Updated model file uploaded to Telegram channel.")
              (effects r)
       | Failed e =>
           MODEL_FILE_ID (final r) = MODEL_FILE_ID st /\
           In (LogError ("Failed to upload model to Telegram: " ++ e))
              (effects r)
       end
     else
       result r = Raise ValueError /\
       model (final r) = model st /\
       MODEL_FILE_ID (final r) = MODEL_FILE_ID st /\
       channel (final r) = channel st).
Proof.
  cbv zeta.
  destruct (String.eqb_spec (lower fb) "yes") as [Hyes | Hnyes].
  { rewrite (update_yes _ _ _ _ Hyes). cbn.
    split; [lia|]. split; [auto | discriminate]. }
  destruct (String.eqb_spec (lower fb) "no") as [Hno | Hnno].
  2:{ rewrite (update_other _ _ _ _ Hnyes Hnno). cbn.
      split; [lia|]. split; [auto | discriminate]. }
  destruct (numbers_of_dec (historical_data (appended x st)))
    as [(numbers & Hnum) | Hbad].
  2:{ rewrite (update_no_raises _ _ _ _ Hno Hbad). cbn.
      split; [lia|]. split; [auto | discriminate]. }
  rewrite (update_no_returns _ _ _ _ numbers Hno Hnum).
  destruct (1 <? List.length numbers).
  2:{ cbn. split; [lia|]. split; [auto | discriminate]. }
  cbv zeta.
  destruct (frame_ok (missing_values st) (removelast numbers) (tl numbers))
    eqn:Hok.
  - set (st2 := set_model _ (appended x st)).
    assert (Hc : count_fits
                   [updating; Fit (removelast numbers) (tl numbers); Dump;
                    upload_log st2] = 1).
    { unfold count_fits. cbn [filter is_fit updating].
      now rewrite is_fit_upload_log. }
    cbn [effects final result fst snd]. rewrite Hc.
    split; [lia|]. split; [discriminate|]. intros _.
    rewrite uploaded_historical_data, uploaded_model.
    split; [reflexivity|]. exists numbers. split; [exact Hnum|].
    split; [right; left; reflexivity|]. rewrite Hok.
    split; [reflexivity|]. split; [reflexivity|].
    unfold uploaded, upload_log. cbv zeta.
    change (channel st2) with (channel st).
    destruct (channel st 0) as [fid|e]; cbn.
    + split; [reflexivity|]. split; [reflexivity|]. auto.
    + split; [reflexivity|]. split; [reflexivity|]. auto.
  - cbn. split; [lia|]. split; [discriminate|]. intros _.
    split; [reflexivity|]. exists numbers. split; [exact Hnum|].
    split; [right; left; reflexivity|]. rewrite Hok. auto.
Qed.

(** ** Start-up, the clear command and the error handler *)

(** X14.  When the download of the stored model file raises, the handlers
    start with a forest that was never fitted, after the failure was
    logged with its exception and a new model was saved.  With such a
    forest, a first message with exactly one valid number raises
    [NotFittedError]: its entries stay in the ledger, and no reply and no
    pending prediction come of it. *)
Theorem start_up_model
  (env : Env) (lib : Library) (st : State) (ev : list event)
  (Hinit : init_bot env lib = (Return (Some st), ev)) :
  (forall e, download lib = Failed e ->
     model st = Unfitted /\
     ev = [LogError ("Failed to download model from Telegram: " ++ e);
           LogInfo "Training a new model..."; Dump]) /\
  (model st = Unfitted ->
   forall text p,
     filter Re.match_decimal (crash_points_of text) = [p] ->
     process_crash_points text st =
     (Raise NotFittedError, set_historical_data (crash_points_of text) st,
      [])).
Proof.
  unfold init_bot in Hinit.
  destruct (PyInt.of_string _); [|discriminate].
  destruct (falsy (getenv env "TELEGRAM_BOT_TOKEN")
            || falsy (getenv env "TELEGRAM_CHANNEL_ID")
            || falsy (getenv env "TELEGRAM_MODEL_FILE_ID")) eqn:Hmiss;
    [discriminate|].
  destruct (validate_token _); [|discriminate].
  apply orb_false_iff in Hmiss. destruct Hmiss as [_ Hfile].
  unfold load_or_train_model in Hinit. rewrite Hfile in Hinit.
  split.
  - intros e He. rewrite He in Hinit. injection Hinit as <- <-.
    split; reflexivity.
  - intros Hm text p Hone.
    destruct (crash_points_outcome text st) as (numbers & Hnum & ->).
    assert (Hl : historical_data st = [])
      by (destruct (download lib); injection Hinit as <- _; reflexivity).
    cbn [historical_data set_historical_data] in Hnum.
    rewrite Hl in *. cbn [app] in *. rewrite Hone in Hnum.
    destruct numbers as [|x [|x2 r]]; try discriminate.
    now rewrite Hm.
Qed.

(** The message [abc, 2.5] after a failed download. *)
Lemma start_up_model_witness :
  process_crash_points "abc, 2.5" idle =
  (Raise NotFittedError, set_historical_data ["abc"; "2.5"] idle, []).
Proof.
  destruct (start_up_model with_file_id offline idle _ eq_refl)
    as (_ & H).
  apply (H eq_refl "abc, 2.5" "2.5"). reflexivity.
Defined.

(** X15.  The start of the process, [init_bot] and then [main] in the
    same environment.  [init_bot] raises [ValueError] on a port that is no
    integer and [InvalidToken] on a token that [Updater] refuses, and
    nothing else.  When it gives no updater, [main] logs the failure and
    starts nothing.  When it gives one, the token is set and well formed,
    and [main] returns after starting either polling or the webhook, whose
    address ends in the token that is also its path; the port cannot fail
    it. *)
Theorem start_up_sequence (env : Env) (lib : Library) :
  match fst (init_bot env lib) with
  | Raise e =>
      (e = ValueError /\
       PyInt.of_string
         (match getenv env "PORT" with Some p => p | None => "8443" end)
       = None) \/
      (e = InvalidToken /\
       exists token,
         getenv env "TELEGRAM_BOT_TOKEN" = Some token /\
         validate_token token = false)
  | Return None =>
      main None env =
      (Return tt, [Logged (LogError "Bot initialization failed. Exiting...")])
  | Return (Some st) =>
      exists token,
        getenv env "TELEGRAM_BOT_TOKEN" = Some token /\
        validate_token token = true /\
        (main (Some st) env =
         (Return tt,
          [Logged (LogInfo "Starting polling mode (local testing)");
           StartPolling; Idle]) \/
         exists name port,
           getenv env "HEROKU_APP_NAME" = Some name /\ name <> "" /\
           let url := ("https://" ++ name ++ ".herokuapp.com/") ++ token in
           main (Some st) env =
           (Return tt,
            [Logged (LogInfo ("Starting webhook on " ++ url));
             StartWebhook "0.0.0.0" port (Some token) url; Idle]))
  end.
Proof.
  unfold init_bot.
  destruct (PyInt.of_string
              match getenv env "PORT" with Some p => p | None => "8443" end)
    as [port|] eqn:Hport; [|left; split; reflexivity].
  destruct (falsy (getenv env "TELEGRAM_BOT_TOKEN")
            || falsy (getenv env "TELEGRAM_CHANNEL_ID")
            || falsy (getenv env "TELEGRAM_MODEL_FILE_ID")) eqn:Hmiss;
    [reflexivity|].
  apply orb_false_iff in Hmiss. destruct Hmiss as [Hmiss _].
  apply orb_false_iff in Hmiss. destruct Hmiss as [Htoken _].
  destruct (getenv env "TELEGRAM_BOT_TOKEN") as [token|] eqn:Ht;
    [|discriminate].
  destruct (validate_token token) eqn:Hvalid.
  2:{ right. split; [reflexivity|]. exists token. auto. }
  destruct (load_or_train_model _ (download lib)) as [m ev]. cbn [fst].
  exists token. split; [reflexivity|]. split; [exact Hvalid|].
  unfold main. rewrite Ht.
  destruct (getenv env "HEROKU_APP_NAME") as [name|]; [|left; reflexivity].
  destruct name as [|c name]; [left; reflexivity|].
  right. exists (String c name), port. rewrite Hport.
  split; [reflexivity|]. split; [discriminate|].
  reflexivity.
Qed.

(** X16.  The clear command empties the ledger and keeps the model and
    the user data.  So the prediction made before stays pending, and with
    a fitted forest the next single observation is taken to the fit on
    the cleared data, without a new fit: it is predicted from that fit
    when the regressor takes it, and raises [ValueError] when not. *)
Theorem clear_keeps_model_and_pending
  (st : State) (X y : list float) (text p : string)
  (Hfitted : model st = Fitted X y)
  (Hone : filter Re.match_decimal (crash_points_of text) = [p]) :
  let cleared := final (clear_data st) in
  historical_data cleared = [] /\
  model cleared = model st /\ user_data cleared = user_data st /\
  exists x,
    PyFloat.of_string p = Some x /\
    let r := process_crash_points text cleared in
    count_fits (effects r) = 0 /\
    model (final r) = Fitted X y /\
    if feature_ok (missing_values st) x then
      effects r = [Reply (PredictionText [x] (RF_predict X y x))] /\
      predicted_value (user_data (final r)) = Some (RF_predict X y x)
    else
      result r = Raise ValueError /\ effects r = [] /\
      user_data (final r) = user_data st.
Proof.
  cbv zeta. split; [reflexivity|]. split; [reflexivity|].
  split; [reflexivity|].
  destruct (crash_points_outcome text (final (clear_data st)))
    as (numbers & Hnum & ->).
  cbn [historical_data set_historical_data clear_data final fst snd] in Hnum.
  assert (Hl : historical_data (final (clear_data st)) = []) by reflexivity.
  rewrite Hl in Hnum. cbn [app] in Hnum. rewrite Hone in Hnum.
  destruct numbers as [|x [|x2 r]]; try discriminate.
  unfold numbers_of in Hnum. cbn in Hnum. injection Hnum as Hp.
  exists x. split; [exact Hp|].
  change (model (final (clear_data st))) with (model st).
  change (missing_values (final (clear_data st))) with (missing_values st).
  rewrite Hfitted.
  destruct (feature_ok (missing_values st) x); repeat split; exact Hfitted.
Qed.

(** The observation [9] after [2.0, 3.0] and the clear command. *)
Lemma clear_keeps_model_and_pending_witness :
  let st := run [CrashPoints "2.0, 3.0"] idle in
  effects (process_crash_points "9" (final (clear_data st))) =
  [Reply (PredictionText [S754_finite false 5066549580791808 (-49)]
            (RF_predict [two] [three]
               (S754_finite false 5066549580791808 (-49))))].
Proof.
  cbv zeta.
  destruct (clear_keeps_model_and_pending
              (run [CrashPoints "2.0, 3.0"] idle) [two] [three] "9" "9"
              eq_refl eq_refl) as (_ & _ & _ & x & Hx & _ & _ & H).
  vm_compute in Hx. injection Hx as <-.
  exact (proj1 H).
Defined.

(** X17.  Every request is answered with exactly one message: the reply
    of its handler when the handler returns, and the notice of the error
    handler when it raises. *)
Theorem every_request_is_answered_once (r : request) (st : State) :
  List.length (filter is_message (snd (dispatch r st))) = 1.
Proof.
  assert (Hup : forall s, is_message (Effect (upload_log s)) = false).
  { intros s. unfold upload_log.
    destruct (channel s 0) as [fid|e]; reflexivity. }
  unfold dispatch.
  destruct r as [| | [text | text | text |]]; cbn [serve handle];
    try reflexivity.
  - crash_points_paths text st; reflexivity.
  - unfold process_feedback, bind, gets, emit, modify.
    destruct (predicted_value (user_data st)); reflexivity.
  - actual_value_paths text st; cbv zeta; try reflexivity.
    cbn [snd map app]. unfold filter.
    rewrite Hup. reflexivity.
Qed.

(** ** The filters in front of the handlers *)

Module FilterFacts.
Import PyStr Bot Session Service StrFacts SplitFacts.

(** [strip] takes a newline off the end of a run without white space,
    and nothing else. *)
Lemma strip_chars_numeral (core nl : list ascii) :
  no_blank core -> Re.at_dollar nl = true ->
  strip_chars (core ++ nl) = core.
Proof.
  intros Hc Hnl.
  rewrite <- (strip_chars_no_blank core Hc) at 2.
  apply (strip_chars_blanks [] core nl); [constructor|].
  apply at_dollar_spec in Hnl. destruct Hnl as [-> | ->];
    repeat constructor.
Qed.

Lemma decimal_chars_no_blank (ip fp : list ascii) :
  digits ip -> digits fp -> no_blank (decimal_chars ip fp).
Proof.
  intros Hip Hfp. unfold decimal_chars, no_blank.
  assert (Hd : forall ds, digits ds ->
            Forall (fun c => is_space c = false) ds).
  { intros ds H. eapply Forall_impl; [|exact H].
    intros c. by_cases_on c. }
  destruct fp as [|f fp]; simpl; apply Forall_app; split; auto.
Qed.

(** Case analysis on a character under a test. *)
Ltac char_cases c H :=
  revert H; destruct c as [[|] [|] [|] [|] [|] [|] [|] [|]]; intros H;
  cbn in H; try discriminate H.

End FilterFacts.

Import FilterFacts.

(** X18.  What the filters of [init_bot] let through, the handlers take.
    A text that passes the filter of [process_actual_value] still matches
    the numeric pattern after [strip], so the handler refuses it only for
    a value of zero.  A text that passes the filter of [process_feedback]
    gives the token "yes" or "no", so the warning for an invalid feedback
    is out of reach of such texts. *)
Theorem filters_guard_the_handlers (text : string) :
  (actual_value_filter text = true ->
   Re.match_decimal (strip text) = true /\
   exists x, PyFloat.of_string (strip text) = Some x /\
     forall st,
       process_actual_value text st =
         (Return tt, st, [Reply invalid_actual_value]) <->
       PyFloat.le_zero x = true) /\
  (feedback_filter text = true ->
   lower (strip text) = "yes" \/ lower (strip text) = "no").
Proof.
  split.
  - unfold actual_value_filter, Re.search_decimal, Re.match_decimal.
    intros H. apply match_decimal_chars_spec in H.
    destruct H as (ip & fp & nl & Hne & Hip & Hfp & Hnl & Hs).
    assert (Hstrip : chars (strip text) = decimal_chars ip fp).
    { rewrite chars_strip, Hs. apply strip_chars_numeral;
        [now apply decimal_chars_no_blank | exact Hnl]. }
    assert (Hm : Re.match_decimal (strip text) = true).
    { unfold Re.match_decimal. apply match_decimal_chars_spec.
      exists ip, fp, []. rewrite app_nil_r. repeat split; auto. }
    split; [exact Hm|].
    destruct (match_decimal_of_string _ Hm) as (x & Hx).
    exists x. split; [exact Hx|]. intros st. split.
    + intros Hrun. destruct (PyFloat.le_zero x) eqn:Hle; [reflexivity|].
      rewrite (actual_value_accepted text x st) in Hrun
        by (split; [|split]; assumption).
      destruct (update_model_with_feedback _ _ _ _) as [[[u|e] st1] ev1];
        [|discriminate].
      assert (Hev : (ev1 ++ [Reply thank_you])%list =
                    [Reply invalid_actual_value]) by congruence.
      destruct ev1 as [|e1 [|e2 ev1]]; cbv in Hev; discriminate.
    + intros Hle. apply actual_value_rejected. right. exists x. auto.
  - unfold feedback_filter, Re.search_yes_no. intros H.
    assert (Hc : chars text = chars "yes" \/
                 chars text = (chars "yes" ++ ["010"%char])%list \/
                 chars text = chars "no" \/
                 chars text = (chars "no" ++ ["010"%char])%list).
    { destruct (chars text) as [|c1 [|c2 r2]]; try discriminate.
      - char_cases c1 H.
      - char_cases c1 H.
        + (* y *)
          char_cases c2 H. destruct r2 as [|c3 r3]; [discriminate|].
          char_cases c3 H. apply at_dollar_spec in H.
          destruct H as [-> | ->]; auto.
        + (* n *)
          char_cases c2 H. apply at_dollar_spec in H.
          destruct H as [-> | ->]; auto. }
    assert (Hs : forall cs, chars text = cs -> strip text = strip (str cs)).
    { intros cs <-. unfold strip. now rewrite chars_str. }
    destruct Hc as [Hc | [Hc | [Hc | Hc]]]; rewrite (Hs _ Hc);
      [left | left | right | right]; reflexivity.
Qed.

(** ** One message or several *)

Module PiecesFacts.
Import PyStr Bot Session Service StrFacts SplitFacts.

Lemma chars_append (a b : string) :
  chars (a ++ b) = (chars a ++ chars b)%list.
Proof. induction a as [|c a IH]; simpl; [reflexivity|]. now rewrite IH. Qed.

Lemma split_chars_no_sep_id (sep : ascii) (w : list ascii) :
  ~ In sep w -> split_chars sep w = [w].
Proof.
  induction w as [|c w IH]; simpl; intros H; [reflexivity|].
  destruct (Ascii.eqb_spec c sep) as [-> | Hc]; [contradiction H; auto|].
  rewrite IH by (intros Hin; apply H; auto). reflexivity.
Qed.

Lemma split_chars_nonempty (sep : ascii) (w : list ascii) :
  split_chars sep w <> [].
Proof.
  induction w as [|c w IH]; simpl; [discriminate|].
  destruct (Ascii.eqb c sep); [discriminate|].
  destruct (split_chars sep w); [contradiction | discriminate].
Qed.

(** A split at the separator splits both sides. *)
Lemma split_chars_app (sep : ascii) (a b : list ascii) :
  split_chars sep (a ++ sep :: b) =
  (split_chars sep a ++ split_chars sep b)%list.
Proof.
  induction a as [|c a IH]; simpl.
  - now rewrite Ascii.eqb_refl.
  - destruct (Ascii.eqb c sep); rewrite IH; [reflexivity|].
    destruct (split_chars sep a) as [|w ws] eqn:Ha; [|reflexivity].
    now destruct (split_chars_nonempty sep a).
Qed.

(** Characters without the separator in front go to the first piece. *)
Lemma split_chars_prefix (sep : ascii) (pre l w : list ascii)
      (ws : list (list ascii)) :
  ~ In sep pre -> split_chars sep l = w :: ws ->
  split_chars sep (pre ++ l) = (pre ++ w)%list :: ws.
Proof.
  intros Hpre Hl. induction pre as [|c pre IH]; simpl; [exact Hl|].
  destruct (Ascii.eqb_spec c sep) as [-> | Hc]; [contradiction Hpre; simpl; auto|].
  rewrite IH by (intros Hin; apply Hpre; simpl; auto). reflexivity.
Qed.

(** Characters without the separator at the end go to the last piece. *)
Lemma split_chars_suffix (sep : ascii) (l post : list ascii) :
  ~ In sep post ->
  exists ws w,
    split_chars sep l = (ws ++ [w])%list /\
    split_chars sep (l ++ post) = (ws ++ [w ++ post])%list.
Proof.
  intros Hpost. induction l as [|c l (ws & w & Hl & Hlp)]; simpl.
  - exists [], []. split; [reflexivity|].
    now apply split_chars_no_sep_id.
  - destruct (Ascii.eqb c sep).
    + exists ([] :: ws), w. rewrite Hl, Hlp. split; reflexivity.
    + rewrite Hl, Hlp. destruct ws as [|w1 ws1]; simpl.
      * exists [], (c :: w). split; reflexivity.
      * exists ((c :: w1) :: ws1), w. split; reflexivity.
Qed.

Lemma blanks_no_comma (cs : list ascii) :
  blanks cs -> ~ In ","%char cs.
Proof.
  intros H Hin. unfold blanks in H. rewrite Forall_forall in H.
  specialize (H _ Hin). discriminate.
Qed.

Lemma crash_points_of_pieces (text : string) :
  crash_points_of text = pieces (strip_chars (chars text)).
Proof.
  unfold crash_points_of, pieces, split. rewrite chars_strip, map_map.
  f_equal. apply map_ext. intros w. unfold strip. now rewrite chars_str.
Qed.

(** White space around the message does not count. *)
Lemma pieces_blanks (pre l post : list ascii) :
  blanks pre -> blanks post -> pieces (pre ++ l ++ post) = pieces l.
Proof.
  intros Hpre Hpost. unfold pieces. f_equal.
  destruct (split_chars_suffix ","%char l post (blanks_no_comma _ Hpost))
    as (ws & w & Hl & Hlp).
  rewrite Hl.
  assert (Hlast : map (fun w0 => str (strip_chars w0))
                      (ws ++ [w ++ post])%list =
                  map (fun w0 => str (strip_chars w0)) (ws ++ [w])%list).
  { rewrite !map_app. f_equal. simpl. f_equal. f_equal.
    apply (strip_chars_blanks [] w post); [constructor | exact Hpost]. }
  rewrite <- Hlast, <- Hlp.
  destruct (split_chars ","%char (l ++ post)) as [|w1 ws1] eqn:Hs.
  { rewrite Hlp in Hs. destruct ws; discriminate. }
  rewrite (split_chars_prefix _ pre _ w1 ws1 (blanks_no_comma _ Hpre) Hs).
  simpl. f_equal. f_equal.
  rewrite <- (app_nil_r (pre ++ w1)), <- app_assoc.
  apply strip_chars_blanks; [exact Hpre | constructor].
Qed.

Lemma pieces_strip (cs : list ascii) : pieces (strip_chars cs) = pieces cs.
Proof.
  destruct (strip_chars_cut cs) as (pre & post & Hpre & Hpost & Hcs).
  rewrite Hcs at 2. symmetry. now apply pieces_blanks.
Qed.

Lemma pieces_comma (a b : list ascii) :
  pieces (a ++ ","%char :: b) = (pieces a ++ pieces b)%list.
Proof.
  unfold pieces. now rewrite split_chars_app, map_app, filter_app.
Qed.

(** The entries of two messages joined by a comma are the entries of the
    first and then those of the second. *)
Lemma crash_points_of_comma (t1 t2 : string) :
  crash_points_of (t1 ++ "," ++ t2) =
  (crash_points_of t1 ++ crash_points_of t2)%list.
Proof.
  rewrite !crash_points_of_pieces, !pieces_strip, !chars_append.
  apply pieces_comma.
Qed.

End PiecesFacts.


(** ** Numbers of a ledger in two parts *)

Module JoinFacts.
Import PyStr Bot Session BotFacts.

Lemma numbers_of_functional (points : list string) (n1 n2 : list float) :
  numbers_of points n1 -> numbers_of points n2 -> n1 = n2.
Proof.
  unfold numbers_of. intros H1 H2. rewrite H1 in H2. clear H1.
  revert n2 H2. induction n1 as [|x n1 IH]; intros [|y n2] H;
    try discriminate; [reflexivity|].
  simpl in H. injection H as -> H. now rewrite (IH _ H).
Qed.

Lemma numbers_of_app (a b : list string) (numbers : list float) :
  numbers_of (a ++ b) numbers ->
  exists n1 n2,
    numbers = (n1 ++ n2)%list /\ numbers_of a n1 /\ numbers_of b n2.
Proof.
  unfold numbers_of. revert numbers.
  induction a as [|p a IH]; intros numbers H.
  - exists [], numbers. auto.
  - destruct numbers as [|x numbers]; [discriminate|].
    simpl in H. injection H as Hp H.
    destruct (IH _ H) as (n1 & n2 & -> & H1 & H2).
    exists (x :: n1), n2. simpl. rewrite Hp, H1. auto.
Qed.

Lemma finite32_is_finite (x : float) :
  finite32 x = true -> is_finite x = true.
Proof. destruct x; simpl; intros H; (reflexivity || discriminate). Qed.

Lemma finite32_feature_ok (missing : bool) (x : float) :
  finite32 x = true -> feature_ok missing x = true.
Proof. intros H. unfold feature_ok. now rewrite H. Qed.

(** The valid numbers of a ledger within the range of float32. *)
Lemma numbers_within (ledger : list string) (numbers : list float) :
  within_float32 ledger ->
  numbers_of (filter Re.match_decimal ledger) numbers ->
  forallb finite32 numbers = true.
Proof.
  unfold numbers_of. revert numbers.
  induction ledger as [|p l IH]; intros numbers Hin Hnum.
  - destruct numbers; [reflexivity | discriminate].
  - assert (Hl : within_float32 l).
    { intros q x Hq. apply Hin. now right. }
    cbn [filter] in Hnum. destruct (Re.match_decimal p) eqn:Hp.
    + destruct numbers as [|x numbers]; [discriminate|].
      cbn in Hnum. injection Hnum as Hx Hnum.
      cbn [forallb]. rewrite (Hin p x (or_introl eq_refl) Hp Hx).
      now apply IH.
    + now apply IH.
Qed.

Lemma forallb_removelast {A} (f : A -> bool) (l : list A) :
  forallb f l = true -> forallb f (removelast l) = true.
Proof.
  induction l as [|a [|b l] IH]; intros H; [reflexivity | reflexivity |].
  change (removelast (a :: b :: l)) with (a :: removelast (b :: l)).
  cbn [forallb] in *. apply andb_true_iff in H. destruct H as [Ha H].
  rewrite Ha. now apply IH.
Qed.

Lemma forallb_tl {A} (f : A -> bool) (l : list A) :
  forallb f l = true -> forallb f (tl l) = true.
Proof.
  destruct l as [|a l]; intros H; [reflexivity|].
  cbn [forallb tl] in *. now apply andb_true_iff in H.
Qed.

Lemma forallb_last {A} (f : A -> bool) (l : list A) (a d : A) :
  forallb f (a :: l) = true -> f (last (a :: l) d) = true.
Proof.
  revert a. induction l as [|b l IH]; intros a H.
  - cbn in *. now apply andb_true_iff in H.
  - change (last (a :: b :: l) d) with (last (b :: l) d).
    apply IH. cbn [forallb] in H. now apply andb_true_iff in H.
Qed.

Lemma forallb_impl {A} (f g : A -> bool) (l : list A) :
  (forall a, f a = true -> g a = true) ->
  forallb f l = true -> forallb g l = true.
Proof.
  intros Hfg. induction l as [|a l IH]; intros H; [reflexivity|].
  cbn [forallb] in *. apply andb_true_iff in H. destruct H as [Ha H].
  now rewrite (Hfg a Ha), IH.
Qed.

(** The regressor takes the frame and the last of numbers within the
    range of float32. *)
Lemma within_frame_ok (missing : bool) (numbers : list float) :
  forallb finite32 numbers = true ->
  frame_ok missing (removelast numbers) (tl numbers) = true.
Proof.
  intros H. unfold frame_ok. apply andb_true_iff. split.
  - apply forallb_removelast.
    apply (forallb_impl finite32); [apply finite32_feature_ok | exact H].
  - apply forallb_tl.
    apply (forallb_impl finite32); [apply finite32_is_finite | exact H].
Qed.

(** [process_crash_points] on a ledger within the range of float32: the
    regressor refuses nothing. *)
Lemma crash_points_within (text : string) (st : State) :
  within_float32 (historical_data st ++ crash_points_of text) ->
  let st1 :=
    set_historical_data (historical_data st ++ crash_points_of text) st in
  let pending p :=
    set_user_data {| predicted_value := p;
                     feedback := feedback (user_data st) |} in
  exists numbers,
    numbers_of (filter Re.match_decimal (historical_data st1)) numbers /\
    process_crash_points text st =
    match numbers with
    | [] => (Return tt, pending None st1, [Reply no_valid_data])
    | [x] =>
        match model st with
        | Unfitted => (Raise NotFittedError, st1, [])
        | Fitted X y =>
            (Return tt, pending (Some (RF_predict X y x)) st1,
             [Reply (PredictionText numbers (RF_predict X y x))])
        end
    | _ =>
        let X := removelast numbers in
        let y := tl numbers in
        let p := RF_predict X y (last numbers PyFloat.zero) in
        (Return tt, pending (Some p) (set_model (Fitted X y) st1),
         [Fit X y; Dump; Reply (PredictionText numbers p)])
    end.
Proof.
  intros Hin. cbv zeta.
  destruct (ServiceFacts.crash_points_outcome text st)
    as (numbers & Hnum & Hrun).
  cbv zeta in Hnum, Hrun. exists numbers. split; [exact Hnum|].
  rewrite Hrun.
  pose proof (numbers_within _ _ Hin Hnum) as Hall.
  destruct numbers as [|x [|x2 r]]; [reflexivity | |].
  - destruct (model st); [reflexivity|].
    cbn [forallb] in Hall. apply andb_true_iff in Hall.
    now rewrite (finite32_feature_ok _ _ (proj1 Hall)).
  - cbv zeta. rewrite (within_frame_ok _ _ Hall).
    rewrite (finite32_feature_ok _ _ (forallb_last _ _ _ _ Hall)).
    reflexivity.
Qed.

Lemma within_float32_prefix (a b : list string) :
  within_float32 (a ++ b) -> within_float32 a.
Proof. intros H p x Hp. apply H, in_or_app. now left. Qed.

End JoinFacts.

Import PiecesFacts JoinFacts InvariantFacts.

(** X19.  Sending crash points in two messages leaves the bot where one
    message with the two texts joined by a comma leaves it: the second
    message gets the same answer, and the ledger, the model and the
    pending prediction are the same.  This holds in a state whose pending
    prediction, if any, comes with a fitted forest, and for a ledger
    whose valid numbers are all within the range of float32, so that the
    regressor refuses none. *)
Theorem one_message_or_two (t1 t2 : string) (st : State)
  (Hpending : pending_fitted st)
  (Hrange : within_float32
              (historical_data st ++ crash_points_of t1
               ++ crash_points_of t2)) :
  process_crash_points t2 (final (process_crash_points t1 st)) =
  process_crash_points (t1 ++ "," ++ t2) st.
Proof.
  assert (Hrange1 : within_float32 (historical_data st ++ crash_points_of t1)).
  { apply (within_float32_prefix _ (crash_points_of t2)).
    now rewrite <- app_assoc. }
  destruct (crash_points_within t1 st Hrange1) as (n1 & Hn1 & Hrun1).
  destruct (crash_points_within (t1 ++ "," ++ t2) st) as (n & Hn & Hrun).
  { now rewrite crash_points_of_comma. }
  cbv zeta in *.
  set (st1 := final (process_crash_points t1 st)).
  assert (Hled : historical_data st1 =
                 (historical_data st ++ crash_points_of t1)%list).
  { unfold st1, final. rewrite Hrun1.
    destruct n1 as [|x [|x2 r]]; [reflexivity | | reflexivity].
    destruct (model st); reflexivity. }
  assert (Hfb : feedback (user_data st1) = feedback (user_data st)).
  { unfold st1, final. rewrite Hrun1.
    destruct n1 as [|x [|x2 r]]; [reflexivity | | reflexivity].
    destruct (model st); reflexivity. }
  destruct (crash_points_within t2 st1) as (n2 & Hn2 & Hrun2).
  { now rewrite Hled, <- app_assoc. }
  cbv zeta in *.
  cbn [historical_data set_historical_data] in Hn1, Hn, Hn2.
  rewrite Hled, <- app_assoc, <- crash_points_of_comma in Hn2.
  pose proof (numbers_of_functional _ _ _ Hn2 Hn) as ->.
  rewrite crash_points_of_comma, app_assoc, filter_app in Hn.
  destruct (numbers_of_app _ _ _ Hn) as (m1 & m2 & Hm & Hm1 & _).
  pose proof (numbers_of_functional _ _ _ Hm1 Hn1) as ->.
  rewrite Hrun2, Hrun, Hfb, Hled, <- app_assoc, <- crash_points_of_comma.
  clear Hrun2 Hrun Hn Hn1 Hn2 Hm1 Hfb Hled Hrange Hrange1.
  unfold st1, final. rewrite Hrun1. clear Hrun1 st1.
  destruct st as [ledger fdata mdl fid [pv fb] ch missing].
  destruct n as [|x [|x2 r]].
  - destruct n1 as [|y n1]; [reflexivity | discriminate].
  - destruct n1 as [|y [|y2 n1]]; [| | destruct n1; discriminate].
    + destruct mdl as [|X y]; [|reflexivity].
      destruct Hpending as [Hnone | (X & y & Hfit)]; [|discriminate].
      cbn in Hnone. subst pv. reflexivity.
    + destruct mdl; reflexivity.
  - destruct n1 as [|y [|y2 n1]]; [reflexivity | | reflexivity].
    destruct mdl; reflexivity.
Qed.

Lemma one_message_or_two_witness :
  process_crash_points "3.0" (final (process_crash_points "2.0" idle)) =
  process_crash_points ("2.0" ++ "," ++ "3.0") idle.
Proof.
  apply (one_message_or_two "2.0" "3.0" idle).
  - left. reflexivity.
  - intros p x Hp _ Hx. cbn in Hp.
    destruct Hp as [<- | [<- | []]]; vm_compute in Hx;
      injection Hx as <-; reflexivity.
Defined.
